(** * pdb_mol2_process: detection and residue reconstruction of a PDB atom stream

    A shallow embedding of [src/pdb_mol2_process.py].

    - Text lines are [string]s as [readlines()] yields them (ASCII, trailing
      newline kept); Python's [str] methods are written out on them.  The two
      input files are given by their lists of lines, so the exits on a
      missing file are outside the model.
    - The [while] loops of [auto_detect_counts] take a fuel argument (one
      unit per test of the loop condition) and return [None] when it runs
      out, so that termination is a theorem and not a property of the
      encoding.
    - The main loop of [process_pdb] is a state machine over the record
      [state], which holds the loop variables and the contents of the two
      files being written.  [sys.exit(1)] is the outcome [Aborted], which
      keeps the state reached when the process stopped.
    - Output lines are kept as the values their f-strings are filled with;
      [float] is a parameter of the machine, with the syntax of the strings
      it accepts as an instance for concrete runs. *)

From Stdlib Require Import Strings.String Strings.Ascii.
From Stdlib Require Import Lists.List Arith.Arith Arith.PeanoNat Bool.Bool Lia.
Import ListNotations.

Local Open Scope string_scope.
Local Open Scope list_scope.
Local Open Scope nat_scope.

(** ** Python's string methods on ASCII text *)

Module PyStr.

(** [c.isspace()] on the ASCII range: TAB..CR, FS..US and the blank. *)
Definition is_space (c : ascii) : bool :=
  let n := nat_of_ascii c in
  ((9 <=? n) && (n <=? 13)) || ((28 <=? n) && (n <=? 32)).

Definition is_upper_letter (c : ascii) : bool :=
  let n := nat_of_ascii c in (65 <=? n) && (n <=? 90).

Definition is_lower_letter (c : ascii) : bool :=
  let n := nat_of_ascii c in (97 <=? n) && (n <=? 122).

(** The character class [[A-Za-z]]. *)
Definition is_alpha (c : ascii) : bool := is_upper_letter c || is_lower_letter c.

Definition is_digit (c : ascii) : bool :=
  let n := nat_of_ascii c in (48 <=? n) && (n <=? 57).

Definition upper_char (c : ascii) : ascii :=
  if is_lower_letter c then ascii_of_nat (nat_of_ascii c - 32) else c.

Definition lower_char (c : ascii) : ascii :=
  if is_upper_letter c then ascii_of_nat (nat_of_ascii c + 32) else c.

Fixpoint map_chars (f : ascii -> ascii) (s : string) : string :=
  match s with
  | EmptyString => EmptyString
  | String c s' => String (f c) (map_chars f s')
  end.

Fixpoint filter_chars (p : ascii -> bool) (s : string) : string :=
  match s with
  | EmptyString => EmptyString
  | String c s' => if p c then String c (filter_chars p s') else filter_chars p s'
  end.

(** [s.upper()], [s.lower()] *)
Definition upper : string -> string := map_chars upper_char.
Definition lower : string -> string := map_chars lower_char.

(** [s.capitalize()]: first character upper-cased, the rest lower-cased. *)
Definition capitalize (s : string) : string :=
  match s with
  | EmptyString => EmptyString
  | String c s' => String (upper_char c) (lower s')
  end.

Fixpoint lstrip (s : string) : string :=
  match s with
  | EmptyString => EmptyString
  | String c s' => if is_space c then lstrip s' else s
  end.

Fixpoint rstrip (s : string) : string :=
  match s with
  | EmptyString => EmptyString
  | String c s' =>
      match rstrip s' with
      | EmptyString => if is_space c then EmptyString else String c EmptyString
      | t => String c t
      end
  end.

(** [s.strip()] *)
Definition strip (s : string) : string := rstrip (lstrip s).

(** [s[i:j]] for [0 <= i], [0 <= j]: clipped to the string, never raising. *)
Definition slice (i j : nat) (s : string) : string := substring i (j - i) s.

(** [s.startswith(p)] *)
Definition startswith (p s : string) : bool := prefix p s.

(** [s.startswith((p1, ..., pn))] *)
Definition startswith_any (ps : list string) (s : string) : bool :=
  existsb (fun p => startswith p s) ps.

(** [x in S] for a set of strings given by its elements. *)
Definition mem (x : string) (S : list string) : bool :=
  existsb (String.eqb x) S.

(** [s.split()]: the maximal runs of non-blank characters.  [cur] is the
    run being read, reversed. *)
Fixpoint split_from (cur : list ascii) (s : string) : list string :=
  let flush := match cur with
               | [] => []
               | _ => [string_of_list_ascii (rev cur)]
               end in
  match s with
  | EmptyString => flush
  | String c s' =>
      if is_space c then flush ++ split_from [] s'
      else split_from (c :: cur) s'
  end.

Definition split (s : string) : list string := split_from [] s.

(** [re.sub(r'[^A-Za-z]', '', s)] *)
Definition letters_only (s : string) : string := filter_chars is_alpha s.

End PyStr.

Import PyStr.

(** ** Template loader: [load_atom_names_from_mol2] *)

(** The chain of [startswith] tests that turns a lower-cased GAFF atom type
    into an element symbol.  [atom_type] is a field of [split()], hence not
    empty, so [atom_type[0]] is defined. *)
Definition element_guess (atom_type : string) : string :=
  if startswith "cl" atom_type then "Cl"
  else if startswith "br" atom_type then "Br"
  else if startswith "na" atom_type then "Na"
  else if startswith "mg" atom_type then "Mg"
  else if startswith "fe" atom_type then "Fe"
  else match atom_type with
       | EmptyString => EmptyString
       | String c _ => String (upper_char c) EmptyString
       end.

(** The [for line in f] loop; [reading_atoms] and [atom_info] are its two
    variables, [continue] and [break] are written out. *)
Fixpoint load_atom_names_loop (lines : list string) (reading_atoms : bool)
         (atom_info : list (string * string)) : list (string * string) :=
  match lines with
  | [] => atom_info
  | line :: rest =>
      if startswith "@<TRIPOS>ATOM" line then load_atom_names_loop rest true atom_info
      else if startswith "@<TRIPOS>BOND" line then atom_info
      else if reading_atoms then
        let parts := split (strip line) in
        if 6 <=? List.length parts then
          let name := nth 1 parts "" in
          let atom_type := lower (nth 5 parts "") in
          load_atom_names_loop rest reading_atoms
                               (atom_info ++ [(name, element_guess atom_type)])
        else load_atom_names_loop rest reading_atoms atom_info
      else load_atom_names_loop rest reading_atoms atom_info
  end.

(** [mol2_file] is the template file as its list of lines. *)
Definition load_atom_names_from_mol2 (mol2_file : list string) : list (string * string) :=
  load_atom_names_loop mol2_file false [].

(** ** Element classifier: [get_pdb_element] *)

Definition get_pdb_element (line : string) : string :=
  let elem76 := strip (slice 76 78 line) in
  if (78 <=? String.length line) && negb (elem76 =? "")%string then capitalize elem76
  else
    let name := strip (slice 12 16 line) in
    let elem := letters_only name in
    if startswith "CL" (upper elem) then "Cl"
    else if startswith "BR" (upper elem) then "Br"
    else if startswith "H" elem then "H"
    else capitalize elem.

(** ** Pattern detector: [auto_detect_counts] *)

Definition ION_NAMES : list string := ["CL-"; "CL"; "NA"; "NA+"; "K"; "K+"; "MG"; "MG2+"].
Definition WATER_RES_NAMES : list string := ["WAT"; "HOH"; "SOL"; "TIP3"; "TP3"].
Definition WATER_ATOM_NAMES : list string := ["O"; "OW"; "OH2"].
Definition atoms_per_wat : nat := 3.
Definition water_pattern : list string := ["O"; "H"; "H"].

(** [line[12:16].strip()] and [line[17:20].strip()] *)
Definition name_field (line : string) : string := strip (slice 12 16 line).
Definition resname_field (line : string) : string := strip (slice 17 20 line).

(** [for j in range(n): if not ok(j): matches = False; break]: the value of
    [matches] after the loop. *)
Definition for_all_range (n : nat) (ok : nat -> bool) : bool :=
  forallb ok (seq 0 n).

(** The body of the oligomer scan's inner loop.  Under the loop condition
    [current_index + atoms_per_olig <= len(atom_lines)] both subscripts are in
    range, so the defaults of [nth] are never read. *)
Definition oligomer_window_matches (atom_lines pattern_names : list string)
           (atoms_per_olig current_index : nat) : bool :=
  for_all_range atoms_per_olig (fun j =>
    (name_field (nth (current_index + j) atom_lines "") =? nth j pattern_names "")%string).

(** First [while] loop; returns [(current_index, num_olig)] at its exit. *)
Fixpoint scan_oligomers (fuel : nat) (atom_lines pattern_names : list string)
         (atoms_per_olig current_index num_olig : nat) : option (nat * nat) :=
  match fuel with
  | 0 => None
  | S fuel' =>
      if current_index + atoms_per_olig <=? List.length atom_lines then
        if oligomer_window_matches atom_lines pattern_names atoms_per_olig current_index
        then scan_oligomers fuel' atom_lines pattern_names atoms_per_olig
                            (current_index + atoms_per_olig) (num_olig + 1)
        else Some (current_index, num_olig)
      else Some (current_index, num_olig)
  end.

Definition is_ion_line (line : string) : bool :=
  let res_name := upper (resname_field line) in
  let atom_name := upper (name_field line) in
  mem res_name ION_NAMES || mem atom_name ION_NAMES.

Definition is_water_line (line : string) : bool :=
  let res_name := upper (resname_field line) in
  let atom_name := upper (name_field line) in
  mem res_name WATER_RES_NAMES || mem atom_name WATER_ATOM_NAMES.

(** Second [while] loop; returns [(ion_scan_index, num_ion)] at its exit.
    Both non-ion branches [break]. *)
Fixpoint scan_ions (fuel : nat) (atom_lines : list string)
         (ion_scan_index num_ion : nat) : option (nat * nat) :=
  match fuel with
  | 0 => None
  | S fuel' =>
      if ion_scan_index <? List.length atom_lines then
        let line := nth ion_scan_index atom_lines "" in
        if is_ion_line line
        then scan_ions fuel' atom_lines (ion_scan_index + 1) (num_ion + 1)
        else if is_water_line line then Some (ion_scan_index, num_ion)
        else Some (ion_scan_index, num_ion)
      else Some (ion_scan_index, num_ion)
  end.

Definition water_window_matches (atom_lines : list string) (k : nat) : bool :=
  for_all_range atoms_per_wat (fun j =>
    let elem := get_pdb_element (nth (k + j) atom_lines "") in
    let target := nth j water_pattern "" in
    if (target =? "H")%string && (elem =? "H")%string then true
    else if (target =? "O")%string && (elem =? "O")%string then true
    else false).

(** Third [while] loop; returns [(k, num_wat)] at its exit. *)
Fixpoint scan_waters (fuel : nat) (atom_lines : list string)
         (k num_wat : nat) : option (nat * nat) :=
  match fuel with
  | 0 => None
  | S fuel' =>
      if k + atoms_per_wat <=? List.length atom_lines then
        if water_window_matches atom_lines k
        then scan_waters fuel' atom_lines (k + atoms_per_wat) (num_wat + 1)
        else Some (k, num_wat)
      else Some (k, num_wat)
  end.

(** The three cursors and counts as the function computes them; the result of
    [auto_detect_counts] is the triple of counts. *)
Definition auto_detect_counts (fuel : nat) (atom_lines : list string)
           (atoms_per_olig : nat) : option (nat * nat * nat) :=
  if List.length atom_lines <? atoms_per_olig then Some (0, 0, 0)
  else
    let pattern_names := map name_field (firstn atoms_per_olig atom_lines) in
    match scan_oligomers fuel atom_lines pattern_names atoms_per_olig 0 0 with
    | None => None
    | Some (current_index, num_olig) =>
        match scan_ions fuel atom_lines current_index 0 with
        | None => None
        | Some (ion_scan_index, num_ion) =>
            match scan_waters fuel atom_lines ion_scan_index 0 with
            | None => None
            | Some (_, num_wat) => Some (num_olig, num_ion, num_wat)
            end
        end
    end.

(** ** Reconstruction: the main loop of [process_pdb] *)

(** The phase variable [current_mol_type], a string in the source. *)
Inductive mol_type : Type := oligomer | ion | water | done.

(** What stops the process: the four [sys.exit(1)] of the main loop with the
    values their messages print (for the ion message the expected element is
    the literal [Cl] of its text), and the uncaught [IndexError] of a
    subscript out of range. *)
Inductive fatal : Type :=
| InvalidCoordinates (line_num : nat)
| OligomerMismatch (line_num : nat) (target_name target_element found : string)
| IonMismatch (line_num : nat) (expected found : string)
| WaterMismatch (line_num : nat) (target_element found : string)
| IndexError.

(** The line number a fatal message prints. *)
Definition reported_line (e : fatal) : option nat :=
  match e with
  | InvalidCoordinates n | OligomerMismatch n _ _ _ | IonMismatch n _ _
  | WaterMismatch n _ _ => Some n
  | IndexError => None
  end.

(** [MANUAL_NUM_OLIGOMERS], [MANUAL_NUM_IONS], [MANUAL_NUM_WATERS] of the user
    configuration block. *)
Record manual_config : Type := mk_manual {
  MANUAL_NUM_OLIGOMERS : nat;
  MANUAL_NUM_IONS : nat;
  MANUAL_NUM_WATERS : nat }.

(** The values the script ships with. *)
Definition shipped_config : manual_config := mk_manual 64 48 1624.

(** Lines 206-210: the detected counts, or the manual ones when all three
    are zero. *)
Definition fallback_counts (cfg : manual_config) (detected : nat * nat * nat)
  : nat * nat * nat :=
  let '(num_oligomers, num_ions, num_waters) := detected in
  if (num_oligomers =? 0) && (num_ions =? 0) && (num_waters =? 0)
  then (MANUAL_NUM_OLIGOMERS cfg, MANUAL_NUM_IONS cfg, MANUAL_NUM_WATERS cfg)
  else (num_oligomers, num_ions, num_waters).

Definition is_atom_line (line : string) : bool :=
  startswith_any ["ATOM"; "HETATM"] line.

Definition is_header_line (line : string) : bool :=
  startswith_any ["CRYST1"; "REMARK"; "COMPND"; "HEADER"; "TITLE"; "AUTHOR"] line.

(** The [if]/[elif] that separates the lines read. *)
Definition atom_lines_of (all_lines : list string) : list string :=
  filter is_atom_line all_lines.

Definition header_lines_of (all_lines : list string) : list string :=
  filter (fun line => negb (is_atom_line line) && is_header_line line) all_lines.

Definition water_atom_names : list string := ["O"; "H1"; "H2"].
Definition water_elements : list string := ["O"; "H"; "H"].

Section Reconstruction.

(** [float(...)] is kept abstract: [coord] stands for Python's floats and
    [py_float s] is [None] where [float(s)] raises [ValueError]. *)
Context {coord : Type}.
Variable py_float : string -> option coord.

(** The fields an [ATOM] f-string is filled with. *)
Record atom_record : Type := mk_atom {
  serial : nat;
  atom_name : string;
  res_name : string;
  res_seq : nat;
  xyz : coord * coord * coord }.

(** A line written to [fout]: a header copied as it is, a formatted atom
    line, ["TER\n"] or ["END\n"]. *)
Inductive pdb_line : Type :=
| Header (raw : string)
| Atom (a : atom_record)
| TerLine
| EndLine.

(** The variables of the main loop and the contents of the two files being
    written.  [f_extract] holds the atom lines written to
    [extracted_oligomer.pdb], each in that file's own layout, with the
    literal residue name [MOL] and residue number [1]. *)
Record state : Type := mk_state {
  fout : list pdb_line;
  f_extract : list atom_record;
  extracting : bool;
  atom_counter : nat;
  residue_counter : nat;
  current_mol_type : mol_type;
  mol_idx : nat;
  atom_in_mol_idx : nat;
  current_residue_lines : list pdb_line }.

Definition initial_state (header_lines : list string) : state :=
  mk_state (map Header header_lines) [] true 0 0 oligomer 0 0 [].

Variable oligomer_info : list (string * string).
Variables num_oligomers num_ions num_waters : nat.

Definition atoms_per_oligomer : nat := List.length oligomer_info.

(** The [oligomer] branch, after the coordinates are read. *)
Definition step_oligomer (line_num : nat) (pdb_element : string)
           (p : coord * coord * coord) (st : state) : fatal + state :=
  match nth_error oligomer_info (atom_in_mol_idx st) with
  | None => inl IndexError
  | Some (target_name, target_element) =>
      if negb (pdb_element =? target_element)%string
      then inl (OligomerMismatch line_num target_name target_element pdb_element)
      else
        let f_extract1 :=
          if extracting st
          then f_extract st ++ [mk_atom (atom_in_mol_idx st + 1) pdb_element "MOL" 1 p]
          else f_extract st in
        let atom_in_mol_idx1 := atom_in_mol_idx st + 1 in
        let atom_counter1 := atom_counter st + 1 in
        if atom_in_mol_idx1 =? atoms_per_oligomer then
          let residue_counter1 := residue_counter st + 1 in
          let lines1 := current_residue_lines st
                        ++ [Atom (mk_atom atom_counter1 target_name "MOL" residue_counter1 p);
                            TerLine] in
          let mol_idx1 := mol_idx st + 1 in
          if mol_idx1 =? num_oligomers then
            inr (mk_state (fout st ++ lines1) f_extract1 false atom_counter1
                          residue_counter1
                          (if 0 <? num_ions then ion
                           else if 0 <? num_waters then water else done)
                          0 0 [])
          else
            inr (mk_state (fout st ++ lines1) f_extract1 false atom_counter1
                          residue_counter1 oligomer mol_idx1 0 [])
        else
          inr (mk_state (fout st) f_extract1 (extracting st) atom_counter1
                        (residue_counter st) oligomer (mol_idx st) atom_in_mol_idx1
                        (current_residue_lines st
                         ++ [Atom (mk_atom atom_counter1 target_name "MOL"
                                           (residue_counter st + 1) p)]))
  end.

(** The [ion] branch. *)
Definition step_ion (line_num : nat) (pdb_element : string)
           (p : coord * coord * coord) (st : state) : fatal + state :=
  if negb (pdb_element =? "Cl")%string
  then inl (IonMismatch line_num "Cl" pdb_element)
  else
    let atom_counter1 := atom_counter st + 1 in
    let residue_counter1 := residue_counter st + 1 in
    let fout1 := fout st ++ [Atom (mk_atom atom_counter1 "Cl-" "Cl-" residue_counter1 p);
                             TerLine] in
    let mol_idx1 := mol_idx st + 1 in
    if mol_idx1 =? num_ions then
      inr (mk_state fout1 (f_extract st) (extracting st) atom_counter1 residue_counter1
                    (if 0 <? num_waters then water else done)
                    0 0 (current_residue_lines st))
    else
      inr (mk_state fout1 (f_extract st) (extracting st) atom_counter1 residue_counter1
                    ion mol_idx1 (atom_in_mol_idx st) (current_residue_lines st)).

(** The [water] branch. *)
Definition step_water (line_num : nat) (pdb_element : string)
           (p : coord * coord * coord) (st : state) : fatal + state :=
  match nth_error water_atom_names (atom_in_mol_idx st),
        nth_error water_elements (atom_in_mol_idx st) with
  | Some name, Some target_element =>
      if negb (pdb_element =? target_element)%string
      then inl (WaterMismatch line_num target_element pdb_element)
      else
        let atom_in_mol_idx1 := atom_in_mol_idx st + 1 in
        let atom_counter1 := atom_counter st + 1 in
        if atom_in_mol_idx1 =? 3 then
          let residue_counter1 := residue_counter st + 1 in
          let lines1 := current_residue_lines st
                        ++ [Atom (mk_atom atom_counter1 name "WAT" residue_counter1 p);
                            TerLine] in
          let mol_idx1 := mol_idx st + 1 in
          inr (mk_state (fout st ++ lines1) (f_extract st) (extracting st) atom_counter1
                        residue_counter1
                        (if mol_idx1 =? num_waters then done else water)
                        mol_idx1 0 [])
        else
          inr (mk_state (fout st) (f_extract st) (extracting st) atom_counter1
                        (residue_counter st) water (mol_idx st) atom_in_mol_idx1
                        (current_residue_lines st
                         ++ [Atom (mk_atom atom_counter1 name "WAT"
                                           (residue_counter st + 1) p)]))
  | _, _ => inl IndexError
  end.

(** The [try] block: the three coordinates, or [None] on [ValueError]. *)
Definition read_xyz (line : string) : option (coord * coord * coord) :=
  match py_float (slice 30 38 line), py_float (slice 38 46 line),
        py_float (slice 46 54 line) with
  | Some x, Some y, Some z => Some (x, y, z)
  | _, _, _ => None
  end.

(** One pass through the loop body for a record that is not skipped by the
    [done] test: the coordinates, the classifier, then the branch of the
    current phase. *)
Definition step (line_num : nat) (line : string) (st : state) : fatal + state :=
  match read_xyz line with
  | Some p =>
      let pdb_element := get_pdb_element line in
      match current_mol_type st with
      | oligomer => step_oligomer line_num pdb_element p st
      | ion => step_ion line_num pdb_element p st
      | water => step_water line_num pdb_element p st
      | done => inr st
      end
  | None => inl (InvalidCoordinates line_num)
  end.

(** How the process ends: the loop is left (by exhaustion or by [break]),
    with the records that were never processed, or the process exits. *)
Inductive outcome : Type :=
| Completed (st : state) (unconsumed : list string)
| Aborted (e : fatal) (st : state).

(** [for line_num, line in enumerate(atom_lines, 1)] *)
Fixpoint main_loop (line_num : nat) (atom_lines : list string) (st : state) : outcome :=
  match atom_lines with
  | [] => Completed st []
  | line :: rest =>
      match current_mol_type st with
      | done => Completed st atom_lines
      | _ =>
          match step line_num line st with
          | inl e => Aborted e st
          | inr st1 => main_loop (S line_num) rest st1
          end
      end
  end.

(** After the loop: the warning test and [fout.write("END\n")]. *)
Definition incomplete_residue_warning (st : state) : bool :=
  match current_residue_lines st with
  | [] => false
  | _ => true
  end.

Definition write_end (st : state) : state :=
  mk_state (fout st ++ [EndLine]) (f_extract st) (extracting st) (atom_counter st)
           (residue_counter st) (current_mol_type st) (mol_idx st)
           (atom_in_mol_idx st) (current_residue_lines st).

Definition reconstruct (header_lines atom_lines : list string) : outcome :=
  match main_loop 1 atom_lines (initial_state header_lines) with
  | Completed st rest => Completed (write_end st) rest
  | Aborted e st => Aborted e st
  end.

End Reconstruction.

Arguments atom_record : clear implicits.
Arguments pdb_line : clear implicits.
Arguments state : clear implicits.
Arguments outcome : clear implicits.

(** [process_pdb], from the lines of the two files read.  [None]: the
    detector has not returned within [fuel]. *)
Definition process_pdb {coord : Type} (py_float : string -> option coord)
           (fuel : nat) (cfg : manual_config)
           (input_pdb mol2_template : list string) : option (outcome coord) :=
  let oligomer_info := load_atom_names_from_mol2 mol2_template in
  let atom_lines := atom_lines_of input_pdb in
  let header_lines := header_lines_of input_pdb in
  match auto_detect_counts fuel atom_lines (List.length oligomer_info) with
  | None => None
  | Some detected =>
      let '(num_oligomers, num_ions, num_waters) := fallback_counts cfg detected in
      Some (reconstruct py_float oligomer_info num_oligomers num_ions num_waters
                        header_lines atom_lines)
  end.

(** ** The strings [float] accepts

    An instance of [py_float] for running the machine on concrete lines: the
    syntax check of Python's [float(s)] on ASCII text.  The value is kept as
    the text of the literal. *)

Module PyFloat.

(** An underscore is accepted only between two digits. *)
Fixpoint underscores_ok (prev : option ascii) (s : list ascii) : bool :=
  match s with
  | [] => match prev with
          | Some c => negb (Ascii.eqb c "_")
          | None => true
          end
  | c :: s' =>
      let prev_digit := match prev with Some d => is_digit d | None => false end in
      let prev_underscore :=
        match prev with Some d => Ascii.eqb d "_" | None => false end in
      (if Ascii.eqb c "_" then prev_digit
       else if prev_underscore then is_digit c else true)
      && underscores_ok (Some c) s'
  end.

(** The number of leading digits and what follows them. *)
Fixpoint span_digits (s : list ascii) : nat * list ascii :=
  match s with
  | c :: s' => if is_digit c
               then let '(n, r) := span_digits s' in (S n, r)
               else (0, s)
  | [] => (0, [])
  end.

Definition drop_sign (s : list ascii) : list ascii :=
  match s with
  | c :: r => if Ascii.eqb c "+" || Ascii.eqb c "-" then r else s
  | [] => []
  end.

(** Nothing, or [e]/[E], an optional sign and at least one digit. *)
Definition exponent_ok (s : list ascii) : bool :=
  match s with
  | [] => true
  | c :: r =>
      (Ascii.eqb c "e" || Ascii.eqb c "E")
      && let '(n, r') := span_digits (drop_sign r) in
         (0 <? n) && match r' with [] => true | _ => false end
  end.

(** Digits with an optional point, at least one digit in all, then the
    exponent. *)
Definition decimal_ok (s : list ascii) : bool :=
  let '(n1, r1) := span_digits s in
  let '(n2, r2) := match r1 with
                   | c :: r => if Ascii.eqb c "." then span_digits r else (0, r1)
                   | [] => (0, r1)
                   end in
  (0 <? n1 + n2) && exponent_ok r2.

Definition inf_nan_ok (s : list ascii) : bool :=
  mem (lower (string_of_list_ascii s)) ["inf"; "infinity"; "nan"].

Definition float_syntax (s : string) : bool :=
  let l := list_ascii_of_string (strip s) in
  underscores_ok None l
  && let body := drop_sign (filter (fun c => negb (Ascii.eqb c "_")) l) in
     inf_nan_ok body || decimal_ok body.

Definition py_float_text (s : string) : option string :=
  if float_syntax s then Some (strip s) else None.

End PyFloat.

(** ** The shape of the main output *)

Section Layout.

Context {coord : Type}.

(** A closed residue as it stands in the file: its atom lines, then [TER]. *)
Definition render_residue (r : list (atom_record coord)) : list (pdb_line coord) :=
  map Atom r ++ [TerLine].

Definition render (rs : list (list (atom_record coord))) : list (pdb_line coord) :=
  flat_map render_residue rs.

(** The residues [rs] are not empty and carry the numbers [k], [k+1], ... in
    order, each on all of its atom lines. *)
Fixpoint numbered_from (k : nat) (rs : list (list (atom_record coord))) : Prop :=
  match rs with
  | [] => True
  | r :: rs' => r <> [] /\ Forall (fun a => res_seq a = k) r /\ numbered_from (S k) rs'
  end.

End Layout.

(** ** The loop invariant *)

Section Invariant.

Context {coord : Type}.
Variable py_float : string -> option coord.
Variable header_lines : list string.
Variable oligomer_info : list (string * string).
Variables num_oligomers num_ions num_waters : nat.

(** What the extraction branch writes for the record [line] read at offset
    [j] of the first unit. *)
Definition extracted_line (j : nat) (line : string) : option (atom_record coord) :=
  option_map (mk_atom (j + 1) (get_pdb_element line) "MOL" 1) (read_xyz py_float line).

Fixpoint extracted_from (j : nat) (ls : list string) : list (option (atom_record coord)) :=
  match ls with
  | [] => []
  | line :: ls' => extracted_line j line :: extracted_from (S j) ls'
  end.

(** [E] is the extraction of the records [ls], whose elements are those of
    the template. *)
Definition extract_ok (ls : list string) (E : list (atom_record coord)) : Prop :=
  map Some E = extracted_from 0 ls
  /\ map get_pdb_element ls = firstn (List.length ls) (map snd oligomer_info).

(** After the records [pre]: the output file holds the headers and the closed
    residues [rs], the buffer holds the atom lines [cur] of the residue being
    read, and both are numbered without a gap. *)
Record core_inv (pre : list string) (rs : list (list (atom_record coord)))
       (cur : list (atom_record coord)) (st : state coord) : Prop := {
  inv_counter : atom_counter st = List.length pre;
  inv_fout : fout st = map Header header_lines ++ render rs;
  inv_buffer : current_residue_lines st = map Atom cur;
  inv_residues : residue_counter st = List.length rs;
  inv_serials : map serial (concat rs ++ cur) = seq 1 (List.length pre);
  inv_numbered : numbered_from 1 rs;
  inv_open : Forall (fun a => res_seq a = S (List.length rs)) cur;
  inv_coords : map (fun a => Some (xyz a)) (concat rs ++ cur) = map (read_xyz py_float) pre }.

(** Where the cursor is, phase by phase: [n] records read, [c] lines
    buffered. *)
Definition phase_inv (n c : nat) (st : state coord) : Prop :=
  let apo := List.length oligomer_info in
  match current_mol_type st with
  | oligomer =>
      c = atom_in_mol_idx st
      /\ (atom_in_mol_idx st < apo \/ apo = 0)
      /\ n = mol_idx st * apo + atom_in_mol_idx st
  | ion =>
      c = 0 /\ 1 <= num_oligomers
      /\ n = num_oligomers * apo + mol_idx st
  | water =>
      c = atom_in_mol_idx st /\ atom_in_mol_idx st < 3 /\ 1 <= num_oligomers
      /\ n = num_oligomers * apo + num_ions + 3 * mol_idx st + atom_in_mol_idx st
  | done =>
      c = 0 /\ 1 <= num_oligomers
      /\ n = num_oligomers * apo + num_ions + 3 * num_waters
  end.

(** The extraction file: open during the first unit only, complete after. *)
Definition extract_inv (pre : list string) (st : state coord) : Prop :=
  let apo := List.length oligomer_info in
  if extracting st
  then current_mol_type st = oligomer /\ mol_idx st = 0 /\ extract_ok pre (f_extract st)
  else 1 <= apo /\ apo <= List.length pre /\ extract_ok (firstn apo pre) (f_extract st).

Record loop_inv (pre : list string) (rs : list (list (atom_record coord)))
       (cur : list (atom_record coord)) (st : state coord) : Prop := {
  inv_core : core_inv pre rs cur st;
  inv_phase : phase_inv (List.length pre) (List.length cur) st;
  inv_extract : extract_inv pre st }.

End Invariant.

(** ** A reading of "records matching none of the patterns"

    Used to test the fallback property on junk input: the record's name and
    element occur nowhere in the template, it is no ion line and no water line
    for the detector, and its element is neither [O] nor [H]. *)
Definition matches_no_pattern (oligomer_info : list (string * string))
           (line : string) : bool :=
  negb (mem (name_field line) (map fst oligomer_info))
  && negb (mem (get_pdb_element line) (map snd oligomer_info))
  && negb (is_ion_line line)
  && negb (is_water_line line)
  && negb (mem (get_pdb_element line) water_pattern).

(** The state in which a run ends, whichever way it ends. *)
Definition final_state {coord : Type} (o : outcome coord) : state coord :=
  match o with
  | Completed st _ => st
  | Aborted _ st => st
  end.

(** ** Sample files

    Lines end with the newline [readlines()] keeps. *)

Definition nl : string := String (ascii_of_nat 10) EmptyString.

(** A template of two atoms, [C1] of type [c3] and [H1] of type [hc]. *)
Definition two_atom_mol2 : list string :=
  map (fun l => (l ++ nl)%string)
    ["@<TRIPOS>MOLECULE";
     "MOL";
     "@<TRIPOS>ATOM";
     "      1 C1          0.0000    0.0000    0.0000 c3         1 MOL       0.0000";
     "      2 H1          1.0900    0.0000    0.0000 hc         1 MOL       0.0000";
     "@<TRIPOS>BOND";
     "     1     1     2    1"].

(** A template whose atom block holds no atom. *)
Definition empty_mol2 : list string :=
  map (fun l => (l ++ nl)%string)
    ["@<TRIPOS>MOLECULE";
     "MOL";
     "@<TRIPOS>ATOM";
     "@<TRIPOS>BOND"].

(** Two units of the two-atom template, one chloride, one water, then a
    record no count covers. *)
Definition demo_pdb : list string :=
  map (fun l => (l ++ nl)%string)
    ["REMARK two units, one chloride, one water";
     "CRYST1   30.000   30.000   30.000  90.00  90.00  90.00 P 1           1";
     "ATOM      1  C1  MOL A   1       0.000   0.000   0.000";
     "ATOM      2  H1  MOL A   1       1.090   0.000   0.000";
     "ATOM      3  C1  MOL A   2       5.000   0.000   0.000";
     "ATOM      4  H1  MOL A   2       6.090   0.000   0.000";
     "HETATM    5  Cl- Cl- A   3       9.000   9.000   9.000";
     "ATOM      6  O   WAT A   4      12.000   0.000   0.000";
     "ATOM      7  H1  WAT A   4      12.957   0.000   0.000";
     "ATOM      8  H2  WAT A   4      11.760   0.927   0.000";
     "ATOM      9  NA   NA A   5      20.000  20.000  20.000";
     "END"].

(** A stream shorter than the two-atom template. *)
Definition short_pdb : list string :=
  map (fun l => (l ++ nl)%string)
    ["REMARK one record only";
     "ATOM      1  C1  MOL A   1       0.000   0.000   0.000"].

(** Two records that are no template atom, no ion and no water. *)
Definition junk_pdb : list string :=
  map (fun l => (l ++ nl)%string)
    ["ATOM      1  XX  UNK A   1       0.000   0.000   0.000";
     "ATOM      2  YY  UNK A   1       1.000   0.000   0.000"].

(** One chloride record and nothing else. *)
Definition ion_only_pdb : list string :=
  map (fun l => (l ++ nl)%string)
    ["ATOM      1  Cl- Cl- A   1       9.000   9.000   9.000"].

(** One unit, then a sodium record whose coordinate columns are blank. *)
Definition blank_ion_pdb : list string :=
  map (fun l => (l ++ nl)%string)
    ["ATOM      1  C1  MOL A   1       0.000   0.000   0.000";
     "ATOM      2  H1  MOL A   1       1.090   0.000   0.000";
     "ATOM      3  NA   NA A   2                            "].

(** A template of five atoms with the elements [C], [C], [O], [N], [H]. *)
Definition five_atom_mol2 : list string :=
  map (fun l => (l ++ nl)%string)
    ["@<TRIPOS>MOLECULE";
     "MOL";
     "@<TRIPOS>ATOM";
     "      1 C1          1.0000    0.0000    0.0000 c3         1 MOL       0.0000";
     "      2 C2          2.0000    0.0000    0.0000 c3         1 MOL       0.0000";
     "      3 O1          3.0000    0.0000    0.0000 os         1 MOL       0.0000";
     "      4 N1          4.0000    0.0000    0.0000 n          1 MOL       0.0000";
     "      5 H1          5.0000    0.0000    0.0000 hn         1 MOL       0.0000";
     "@<TRIPOS>BOND"].

(** Two units of the five-atom template by their names; the element column of
    the tenth record disagrees with the template. *)
Definition broken_pdb : list string :=
  map (fun l => (l ++ nl)%string)
    ["REMARK atom 5 of unit 2 carries the element D";
     "ATOM      1  C1  MOL A   1       1.000   0.000   0.000  1.00  0.00           C  ";
     "ATOM      2  C2  MOL A   1       2.000   0.000   0.000  1.00  0.00           C  ";
     "ATOM      3  O1  MOL A   1       3.000   0.000   0.000  1.00  0.00           O  ";
     "ATOM      4  N1  MOL A   1       4.000   0.000   0.000  1.00  0.00           N  ";
     "ATOM      5  H1  MOL A   1       5.000   0.000   0.000  1.00  0.00           H  ";
     "ATOM      6  C1  MOL A   2       6.000   0.000   0.000  1.00  0.00           C  ";
     "ATOM      7  C2  MOL A   2       7.000   0.000   0.000  1.00  0.00           C  ";
     "ATOM      8  O1  MOL A   2       8.000   0.000   0.000  1.00  0.00           O  ";
     "ATOM      9  N1  MOL A   2       9.000   0.000   0.000  1.00  0.00           N  ";
     "ATOM     10  H1  MOL A   2      10.000   0.000   0.000  1.00  0.00           D  "].

(** Three records for the ion phase: a chloride under other names, a sodium,
    and a sodium whose coordinate columns are blank. *)
Definition chloride_line : string :=
  "HETATM    3  CL  CLA A   2       9.000   9.000   9.000" ++ nl.
Definition sodium_line : string :=
  "ATOM      3  NA   NA A   2       4.000   4.000   4.000" ++ nl.
Definition blank_sodium_line : string :=
  "ATOM      3  NA   NA A   2                            " ++ nl.

(** The state of the loop on [blank_ion_pdb] when its unit is closed: two
    records read, one residue written, the ion phase entered. *)
Definition ion_phase_state : state string :=
  mk_state
    [Atom (mk_atom 1 "C1" "MOL" 1 ("0.000", "0.000", "0.000"));
     Atom (mk_atom 2 "H1" "MOL" 1 ("1.090", "0.000", "0.000"));
     TerLine]
    [mk_atom 1 "C" "MOL" 1 ("0.000", "0.000", "0.000");
     mk_atom 2 "H" "MOL" 1 ("1.090", "0.000", "0.000")]
    false 2 1 ion 0 0 [].

(** ** Proof automation *)

(** Closes the side conditions of the invariant lemmas on an explicit
    state. *)
Ltac core_side := first [eassumption | reflexivity].

(** ** Properties of strings and of template rows *)

(** Every character of [s] satisfies [p]. *)
Fixpoint all_chars (p : ascii -> bool) (s : string) : bool :=
  match s with
  | EmptyString => true
  | String c s' => p c && all_chars p s'
  end.

Definition not_space (c : ascii) : bool := negb (is_space c).

(** The two tests on the start of a template line. *)
Definition atom_marker (line : string) : bool := startswith "@<TRIPOS>ATOM" line.
Definition bond_marker (line : string) : bool := startswith "@<TRIPOS>BOND" line.

(** A line of the atom block that is taken as an atom, and the pair
    [load_atom_names_from_mol2] appends for it. *)
Definition is_atom_row (line : string) : bool :=
  6 <=? List.length (split (strip line)).

Definition atom_of_row (line : string) : string * string :=
  let parts := split (strip line) in
  (nth 1 parts "", element_guess (lower (nth 5 parts ""))).

(** A field of [split()]: not empty, no blank in it. *)
Definition field_ok (t : string) : Prop :=
  t <> "" /\ all_chars not_space t = true.

(** A pair of the template: a field as name, and an element symbol of one or
    two characters in capitalized form. *)
Definition entry_ok (ne : string * string) : Prop :=
  field_ok (fst ne)
  /\ (String.length (snd ne) = 1 \/ String.length (snd ne) = 2)
  /\ capitalize (snd ne) = snd ne.

(** ** What a run is expected to read and to write *)

(** The atom lines among the lines of a file, in order. *)
Definition atoms_of {coord : Type} (ls : list (pdb_line coord)) : list (atom_record coord) :=
  flat_map (fun l => match l with Atom a => [a] | _ => [] end) ls.

(** The atom name and residue name of an atom line. *)
Definition names_of {coord : Type} (a : atom_record coord) : string * string :=
  (atom_name a, res_name a).

(** [n] copies of [l], one after the other. *)
Definition copies {A : Type} (n : nat) (l : list A) : list A := concat (repeat l n).

Section Labels.

Context {coord : Type}.
Variable oligomer_info : list (string * string).
Variables num_oligomers num_ions num_waters : nat.

(** For one record: the names its output line gets, and the element it must
    classify as.  One unit is the template with the residue name [MOL]; an
    ion is [Cl-]/[Cl-] of element [Cl]; a water is [O], [H1], [H2] of [WAT]
    with the elements [O], [H], [H]. *)
Definition unit_labels : list (string * string * string) :=
  map (fun ne => (fst ne, "MOL", snd ne)) oligomer_info.

Definition ion_label : string * string * string := ("Cl-", "Cl-", "Cl").

Definition water_labels : list (string * string * string) :=
  [("O", "WAT", "O"); ("H1", "WAT", "H"); ("H2", "WAT", "H")].

(** The whole pattern for the counts: the units, the ions, the waters. *)
Definition expected_labels : list (string * string * string) :=
  copies num_oligomers unit_labels
  ++ repeat ion_label num_ions
  ++ copies num_waters water_labels.

(** The part of the pattern the machine has gone through, read off its
    phase and its two indices. *)
Definition labels_read (st : state coord) : list (string * string * string) :=
  match current_mol_type st with
  | oligomer =>
      copies (mol_idx st) unit_labels ++ firstn (atom_in_mol_idx st) unit_labels
  | ion =>
      copies num_oligomers unit_labels ++ repeat ion_label (mol_idx st)
  | water =>
      copies num_oligomers unit_labels ++ repeat ion_label num_ions
      ++ copies (mol_idx st) water_labels ++ firstn (atom_in_mol_idx st) water_labels
  | done => expected_labels
  end.

(** The residues closed so far, read off the phase in the same way. *)
Definition residues_read (st : state coord) : nat :=
  match current_mol_type st with
  | oligomer => mol_idx st
  | ion => num_oligomers + mol_idx st
  | water => num_oligomers + num_ions + mol_idx st
  | done => num_oligomers + num_ions + num_waters
  end.

(** Where the indices can stand in each phase. *)
Definition indices_in_range (st : state coord) : Prop :=
  match current_mol_type st with
  | oligomer =>
      (num_oligomers = 0 \/ mol_idx st < num_oligomers)
      /\ (atom_in_mol_idx st < List.length oligomer_info \/ List.length oligomer_info = 0)
  | ion =>
      1 <= num_oligomers /\ mol_idx st < num_ions /\ current_residue_lines st = []
  | water =>
      1 <= num_oligomers /\ mol_idx st < num_waters /\ atom_in_mol_idx st < 3
  | done =>
      1 <= num_oligomers /\ current_residue_lines st = []
  end.

(** After the records [pre]: their elements and the names written for them
    (to the file or to the buffer) follow the pattern up to the point the
    machine has reached. *)
Record label_inv (pre : list string) (st : state coord) : Prop := {
  lab_names : map names_of (atoms_of (fout st ++ current_residue_lines st))
              = map fst (labels_read st);
  lab_elements : map get_pdb_element pre = map snd (labels_read st);
  lab_residues : residue_counter st = residues_read st;
  lab_indices : indices_in_range st }.

End Labels.

(** * Properties of the detector *)

Section Detector.

Variable atom_lines : list string.
Variable atoms_per_olig : nat.

Let len := List.length atom_lines.

(** The window the pattern is taken from matches the pattern. *)
Lemma first_window_matches :
  atoms_per_olig <= len ->
  oligomer_window_matches atom_lines
    (map name_field (firstn atoms_per_olig atom_lines)) atoms_per_olig 0 = true.
Proof.
  intros Hlen. unfold oligomer_window_matches, for_all_range.
  apply forallb_forall. intros j Hj. apply in_seq in Hj.
  apply String.eqb_eq. simpl.
  change "" with (name_field "") at 2.
  rewrite map_nth, nth_firstn.
  destruct (Nat.ltb_spec j atoms_per_olig); [reflexivity | lia].
Qed.

(** Each round of the first loop moves the cursor by [atoms_per_olig] and
    counts one unit. *)
Lemma scan_oligomers_result (pattern_names : list string) (fuel : nat) :
  forall current_index num_olig r,
    scan_oligomers fuel atom_lines pattern_names atoms_per_olig
                   current_index num_olig = Some r ->
    exists k, snd r = num_olig + k
              /\ fst r = current_index + k * atoms_per_olig
              /\ (current_index <= len -> fst r <= len).
Proof.
  induction fuel as [|fuel IH]; intros ci n r H; simpl in H; [discriminate|].
  destruct (Nat.leb_spec (ci + atoms_per_olig) (List.length atom_lines)) as [Hle|Hgt].
  - destruct (oligomer_window_matches _ _ _ _).
    + apply IH in H. destruct H as (k & Hs & Hf & Hb).
      exists (S k). repeat split; [lia | simpl; lia | intros _; apply Hb; exact Hle].
    + injection H as <-. exists 0. simpl. repeat split; lia.
  - injection H as <-. exists 0. simpl. repeat split; lia.
Qed.

Lemma scan_oligomers_total (pattern_names : list string) (fuel : nat) :
  1 <= atoms_per_olig ->
  forall current_index num_olig,
    len - current_index < fuel ->
    exists r, scan_oligomers fuel atom_lines pattern_names atoms_per_olig
                             current_index num_olig = Some r.
Proof.
  intros Hpos. induction fuel as [|fuel IH]; intros ci n Hf; [lia|]. simpl.
  destruct (Nat.leb_spec (ci + atoms_per_olig) (List.length atom_lines)) as [Hle|Hgt].
  - destruct (oligomer_window_matches _ _ _ _); [|eauto].
    apply IH. subst len. lia.
  - eauto.
Qed.

Lemma scan_oligomers_more_fuel (pattern_names : list string) (fuel : nat) :
  forall fuel' current_index num_olig r,
    fuel <= fuel' ->
    scan_oligomers fuel atom_lines pattern_names atoms_per_olig
                   current_index num_olig = Some r ->
    scan_oligomers fuel' atom_lines pattern_names atoms_per_olig
                   current_index num_olig = Some r.
Proof.
  induction fuel as [|fuel IH]; intros fuel' ci n r Hle H; [discriminate|].
  destruct fuel' as [|fuel']; [lia|]. simpl in *.
  destruct (_ <=? _); [|exact H].
  destruct (oligomer_window_matches _ _ _ _); [|exact H].
  apply IH; [lia | exact H].
Qed.

(** With an empty template the first loop tests [0 <= len], finds the empty
    window matching and leaves the cursor where it was. *)
Lemma scan_oligomers_empty_window (pattern_names : list string) (fuel : nat) :
  atoms_per_olig = 0 ->
  forall current_index num_olig,
    current_index <= len ->
    scan_oligomers fuel atom_lines pattern_names atoms_per_olig
                   current_index num_olig = None.
Proof.
  intros H0. induction fuel as [|fuel IH]; intros ci n Hci; [reflexivity|].
  simpl. subst atoms_per_olig. rewrite Nat.add_0_r.
  destruct (Nat.leb_spec ci (List.length atom_lines)) as [_|Hgt]; [|subst len; lia].
  unfold oligomer_window_matches, for_all_range. simpl.
  exact (IH ci (n + 1) Hci).
Qed.

Lemma scan_ions_result (fuel : nat) :
  forall ion_scan_index num_ion r,
    scan_ions fuel atom_lines ion_scan_index num_ion = Some r ->
    exists k, snd r = num_ion + k /\ fst r = ion_scan_index + k
              /\ (ion_scan_index <= len -> fst r <= len).
Proof.
  induction fuel as [|fuel IH]; intros i n r H; simpl in H; [discriminate|].
  destruct (Nat.ltb_spec i (List.length atom_lines)) as [Hlt|Hge].
  - destruct (is_ion_line _).
    + apply IH in H. destruct H as (k & Hs & Hf & Hb).
      exists (S k). repeat split; [lia | lia | intros _; apply Hb; subst len; lia].
    + assert (r = (i, n)) as -> by (destruct (is_water_line _); congruence).
      exists 0. simpl. repeat split; lia.
  - injection H as <-. exists 0. simpl. repeat split; lia.
Qed.

Lemma scan_ions_total (fuel : nat) :
  forall ion_scan_index num_ion,
    len - ion_scan_index < fuel ->
    exists r, scan_ions fuel atom_lines ion_scan_index num_ion = Some r.
Proof.
  induction fuel as [|fuel IH]; intros i n Hf; [lia|]. simpl.
  destruct (Nat.ltb_spec i (List.length atom_lines)) as [Hlt|Hge]; [|eauto].
  destruct (is_ion_line _).
  - apply IH. subst len. lia.
  - destruct (is_water_line _); eauto.
Qed.

Lemma scan_ions_more_fuel (fuel : nat) :
  forall fuel' ion_scan_index num_ion r,
    fuel <= fuel' ->
    scan_ions fuel atom_lines ion_scan_index num_ion = Some r ->
    scan_ions fuel' atom_lines ion_scan_index num_ion = Some r.
Proof.
  induction fuel as [|fuel IH]; intros fuel' i n r Hle H; [discriminate|].
  destruct fuel' as [|fuel']; [lia|]. simpl in *.
  destruct (_ <? _); [|exact H].
  destruct (is_ion_line _); [|exact H].
  apply IH; [lia | exact H].
Qed.

Lemma scan_waters_result (fuel : nat) :
  forall k num_wat r,
    scan_waters fuel atom_lines k num_wat = Some r ->
    exists m, snd r = num_wat + m /\ fst r = k + 3 * m
              /\ (k <= len -> fst r <= len).
Proof.
  induction fuel as [|fuel IH]; intros k n r H; simpl in H; [discriminate|].
  unfold atoms_per_wat in H.
  destruct (Nat.leb_spec (k + 3) (List.length atom_lines)) as [Hle|Hgt].
  - destruct (water_window_matches _ _).
    + apply IH in H. destruct H as (m & Hs & Hf & Hb).
      exists (S m). repeat split; [lia | lia | intros _; apply Hb; exact Hle].
    + injection H as <-. exists 0. simpl. repeat split; lia.
  - injection H as <-. exists 0. simpl. repeat split; lia.
Qed.

Lemma scan_waters_total (fuel : nat) :
  forall k num_wat,
    len - k < fuel ->
    exists r, scan_waters fuel atom_lines k num_wat = Some r.
Proof.
  induction fuel as [|fuel IH]; intros k n Hf; [lia|]. simpl.
  unfold atoms_per_wat.
  destruct (Nat.leb_spec (k + 3) (List.length atom_lines)) as [Hle|Hgt]; [|eauto].
  destruct (water_window_matches _ _); [|eauto].
  apply IH. subst len. lia.
Qed.

Lemma scan_waters_more_fuel (fuel : nat) :
  forall fuel' k num_wat r,
    fuel <= fuel' ->
    scan_waters fuel atom_lines k num_wat = Some r ->
    scan_waters fuel' atom_lines k num_wat = Some r.
Proof.
  induction fuel as [|fuel IH]; intros fuel' k n r Hle H; [discriminate|].
  destruct fuel' as [|fuel']; [lia|]. simpl in *.
  destruct (_ <=? _); [|exact H].
  destruct (water_window_matches _ _); [|exact H].
  apply IH; [lia | exact H].
Qed.

(** The counts returned never cover more records than there are. *)
Lemma auto_detect_counts_bound (fuel num_olig num_ion num_wat : nat) :
  auto_detect_counts fuel atom_lines atoms_per_olig = Some (num_olig, num_ion, num_wat) ->
  num_olig * atoms_per_olig + num_ion + 3 * num_wat <= len.
Proof.
  unfold auto_detect_counts.
  destruct (_ <? _); [intros [= <- <- <-]; simpl; lia|].
  destruct (scan_oligomers _ _ _ _ _ _) as [[ci no]|] eqn:E1; [|discriminate].
  destruct (scan_ions _ _ _ _) as [[ii ni]|] eqn:E2; [|discriminate].
  destruct (scan_waters _ _ _ _) as [[k nw]|] eqn:E3; [|discriminate].
  intros [= <- <- <-].
  apply scan_oligomers_result in E1. destruct E1 as (a & Ha1 & Ha2 & Ha3).
  apply scan_ions_result in E2. destruct E2 as (b & Hb1 & Hb2 & Hb3).
  apply scan_waters_result in E3. destruct E3 as (c & Hc1 & Hc2 & Hc3).
  simpl in *. subst. lia.
Qed.

Lemma auto_detect_counts_more_fuel (fuel fuel' : nat) (r : nat * nat * nat) :
  fuel <= fuel' ->
  auto_detect_counts fuel atom_lines atoms_per_olig = Some r ->
  auto_detect_counts fuel' atom_lines atoms_per_olig = Some r.
Proof.
  intros Hle. unfold auto_detect_counts.
  destruct (_ <? _); [trivial|].
  destruct (scan_oligomers fuel _ _ _ _ _) as [[ci no]|] eqn:E1; [|discriminate].
  rewrite (scan_oligomers_more_fuel _ _ _ _ _ _ Hle E1).
  destruct (scan_ions fuel _ _ _) as [[ii ni]|] eqn:E2; [|discriminate].
  rewrite (scan_ions_more_fuel _ _ _ _ _ Hle E2).
  destruct (scan_waters fuel _ _ _) as [[k nw]|] eqn:E3; [|discriminate].
  rewrite (scan_waters_more_fuel _ _ _ _ _ Hle E3). trivial.
Qed.

(** With a template of at least one atom the detector returns, and any fuel
    above the number of records is enough. *)
Lemma auto_detect_counts_total :
  1 <= atoms_per_olig ->
  exists r, forall fuel, len < fuel ->
                         auto_detect_counts fuel atom_lines atoms_per_olig = Some r.
Proof.
  intros Hpos.
  assert (exists r, auto_detect_counts (S len) atom_lines atoms_per_olig = Some r)
    as [r Hr].
  { unfold auto_detect_counts. destruct (_ <? _); [eauto|].
    destruct (scan_oligomers_total
                (map name_field (firstn atoms_per_olig atom_lines)) (S len) Hpos 0 0)
      as [[ci no] E1]; [lia|].
    rewrite E1. apply scan_oligomers_result in E1.
    destruct E1 as (a & _ & _ & Ha). simpl in Ha.
    destruct (scan_ions_total (S len) ci 0) as [[ii ni] E2]; [lia|].
    rewrite E2. apply scan_ions_result in E2.
    destruct (scan_waters_total (S len) ii 0) as [[k nw] E3]; [lia|].
    rewrite E3. eauto. }
  exists r. intros fuel Hf.
  apply (auto_detect_counts_more_fuel (S len)); [lia | exact Hr].
Qed.

(** A stream at least as long as the template holds at least one unit. *)
Lemma auto_detect_counts_first_unit (fuel num_olig num_ion num_wat : nat) :
  atoms_per_olig <= len ->
  auto_detect_counts fuel atom_lines atoms_per_olig = Some (num_olig, num_ion, num_wat) ->
  1 <= num_olig.
Proof.
  intros Hlen. unfold auto_detect_counts.
  destruct (Nat.ltb_spec (List.length atom_lines) atoms_per_olig); [subst len; lia|].
  destruct fuel as [|fuel]; [discriminate|]. cbn [scan_oligomers].
  destruct (Nat.leb_spec (0 + atoms_per_olig) (List.length atom_lines));
    [|subst len; lia].
  rewrite (first_window_matches Hlen).
  destruct (scan_oligomers _ _ _ _ _ _) as [[ci no]|] eqn:E1; [|discriminate].
  destruct (scan_ions _ _ _ _) as [[ii ni]|]; [|discriminate].
  destruct (scan_waters _ _ _ _) as [[k nw]|]; [|discriminate].
  intros [= <- <- <-].
  apply scan_oligomers_result in E1. destruct E1 as (a & Ha & _). simpl in Ha. lia.
Qed.

Lemma auto_detect_counts_short (fuel : nat) :
  len < atoms_per_olig ->
  auto_detect_counts fuel atom_lines atoms_per_olig = Some (0, 0, 0).
Proof.
  intros H. unfold auto_detect_counts.
  destruct (Nat.ltb_spec (List.length atom_lines) atoms_per_olig);
    [reflexivity | subst len; lia].
Qed.

Lemma auto_detect_counts_empty_template (fuel : nat) :
  atoms_per_olig = 0 ->
  auto_detect_counts fuel atom_lines atoms_per_olig = None.
Proof.
  intros H0. unfold auto_detect_counts.
  destruct (Nat.ltb_spec (List.length atom_lines) atoms_per_olig); [lia|].
  rewrite scan_oligomers_empty_window; [reflexivity | exact H0 | lia].
Qed.

End Detector.

(** * Properties of the reconstruction *)

Section LayoutFacts.

Context {coord : Type}.
Implicit Types (r : list (atom_record coord)) (rs : list (list (atom_record coord))).

Lemma render_snoc rs r :
  render (rs ++ [r]) = render rs ++ map Atom r ++ [TerLine].
Proof.
  unfold render. rewrite flat_map_app. simpl. rewrite app_nil_r. reflexivity.
Qed.

Lemma numbered_from_snoc rs : forall k r,
  numbered_from k rs -> r <> [] ->
  Forall (fun a => res_seq a = k + List.length rs) r ->
  numbered_from k (rs ++ [r]).
Proof.
  induction rs as [|r0 rs IH]; intros k r Hrs Hne Hr; simpl in *.
  - rewrite Nat.add_0_r in Hr. auto.
  - destruct Hrs as (H0 & H1 & H2). repeat split; auto.
    apply IH; auto. replace (S k + List.length rs) with (k + S (List.length rs)) by lia.
    exact Hr.
Qed.

(** The residue at position [k] (from 0) of a numbered list carries [k+1]. *)
Lemma numbered_from_nth rs : forall k i r,
  numbered_from k rs -> nth_error rs i = Some r ->
  r <> [] /\ Forall (fun a => res_seq a = k + i) r.
Proof.
  induction rs as [|r0 rs IH]; intros k i r Hrs Hi.
  - destruct i; discriminate.
  - destruct Hrs as (H0 & H1 & H2). destruct i as [|i]; simpl in Hi.
    + injection Hi as <-. rewrite Nat.add_0_r. auto.
    + replace (k + S i) with (S k + i) by lia. eapply IH; eauto.
Qed.

Lemma firstn_snoc {A : Type} (l : list A) : forall n x,
  nth_error l n = Some x -> firstn (S n) l = firstn n l ++ [x].
Proof.
  induction l as [|y l IH]; intros n x H.
  - destruct n; discriminate.
  - destruct n as [|n]; simpl in H.
    + injection H as <-. reflexivity.
    + change (firstn (S (S n)) (y :: l)) with (y :: firstn (S n) l).
      rewrite (IH _ _ H). reflexivity.
Qed.

Lemma firstn_prefix {A : Type} (l l' : list A) (n : nat) :
  n <= List.length l -> firstn n (l ++ l') = firstn n l.
Proof.
  intros H. rewrite firstn_app.
  replace (n - List.length l) with 0 by lia. simpl. apply app_nil_r.
Qed.

Lemma map_Some_inj {A : Type} (l : list A) : forall l',
  map Some l = map Some l' -> l = l'.
Proof.
  induction l as [|x l IH]; intros [|y l'] H; simpl in H; try discriminate; auto.
  injection H as -> H. f_equal. auto.
Qed.

End LayoutFacts.

Section Machine.

Context {coord : Type}.
Variable py_float : string -> option coord.
Variable header_lines : list string.
Variable oligomer_info : list (string * string).
Variables num_oligomers num_ions num_waters : nat.

Local Abbreviation apo := (List.length oligomer_info).
Local Abbreviation Core := (core_inv py_float header_lines).
Local Abbreviation Inv :=
  (loop_inv py_float header_lines oligomer_info num_oligomers num_ions num_waters).
Local Abbreviation ExtractInv := (extract_inv py_float oligomer_info).
Local Abbreviation PhaseInv := (phase_inv oligomer_info num_oligomers num_ions num_waters).
Local Abbreviation run_step := (step py_float oligomer_info num_oligomers num_ions num_waters).
Local Abbreviation run_loop := (main_loop py_float oligomer_info num_oligomers num_ions num_waters).

Lemma extracted_from_snoc (ls : list string) : forall j line,
  extracted_from py_float j (ls ++ [line])
  = extracted_from py_float j ls ++ [extracted_line py_float (j + List.length ls) line].
Proof.
  induction ls as [|l ls IH]; intros j line; simpl.
  - rewrite Nat.add_0_r. reflexivity.
  - rewrite IH, Nat.add_succ_r. reflexivity.
Qed.

Lemma extracted_from_length (ls : list string) : forall j,
  List.length (extracted_from py_float j ls) = List.length ls.
Proof. induction ls; intros j; simpl; auto. Qed.

Lemma initial_state_inv : Inv [] [] [] (initial_state header_lines).
Proof.
  constructor.
  - constructor; simpl; auto. rewrite app_nil_r. reflexivity.
  - unfold phase_inv. simpl. repeat split; lia.
  - unfold extract_inv, extract_ok. simpl. auto.
Qed.

(** An atom line goes to the buffer. *)
Lemma core_push pre rs cur st line p name resn st' :
  Core pre rs cur st ->
  read_xyz py_float line = Some p ->
  fout st' = fout st ->
  current_residue_lines st'
  = current_residue_lines st
    ++ [Atom (mk_atom (atom_counter st + 1) name resn (residue_counter st + 1) p)] ->
  atom_counter st' = atom_counter st + 1 ->
  residue_counter st' = residue_counter st ->
  Core (pre ++ [line]) rs
       (cur ++ [mk_atom (atom_counter st + 1) name resn (residue_counter st + 1) p]) st'.
Proof.
  intros [Hc Hf Hb Hr Hs Hn Ho Hx] Hp Hf' Hb' Hc' Hr'.
  constructor.
  - rewrite Hc', Hc, length_app. reflexivity.
  - rewrite Hf'. exact Hf.
  - rewrite Hb', Hb, map_app. reflexivity.
  - rewrite Hr'. exact Hr.
  - rewrite app_assoc, map_app, Hs, length_app. simpl.
    replace (List.length pre + 1) with (S (List.length pre)) by lia.
    rewrite seq_S, Hc. do 2 f_equal. lia.
  - exact Hn.
  - apply Forall_app. split; [exact Ho|]. constructor; [|constructor].
    simpl. rewrite Hr. lia.
  - rewrite app_assoc, map_app, Hx, map_app. simpl. rewrite Hp. reflexivity.
Qed.

(** An atom line closes the residue in the buffer, which is written out
    with its [TER]. *)
Lemma core_close pre rs cur st line p name resn st' :
  Core pre rs cur st ->
  read_xyz py_float line = Some p ->
  fout st'
  = fout st ++ current_residue_lines st
    ++ [Atom (mk_atom (atom_counter st + 1) name resn (residue_counter st + 1) p);
        TerLine] ->
  current_residue_lines st' = [] ->
  atom_counter st' = atom_counter st + 1 ->
  residue_counter st' = residue_counter st + 1 ->
  Core (pre ++ [line])
       (rs ++ [cur ++ [mk_atom (atom_counter st + 1) name resn (residue_counter st + 1) p]])
       [] st'.
Proof.
  intros [Hc Hf Hb Hr Hs Hn Ho Hx] Hp Hf' Hb' Hc' Hr'.
  constructor.
  - rewrite Hc', Hc, length_app. reflexivity.
  - rewrite Hf', Hf, Hb, render_snoc, map_app, <- !app_assoc. reflexivity.
  - rewrite Hb'. reflexivity.
  - rewrite Hr', Hr, length_app. reflexivity.
  - rewrite concat_app. simpl. rewrite !app_nil_r, app_assoc, map_app, Hs.
    rewrite length_app. simpl.
    replace (List.length pre + 1) with (S (List.length pre)) by lia.
    rewrite seq_S, Hc. do 2 f_equal. lia.
  - apply numbered_from_snoc.
    + exact Hn.
    + destruct cur; discriminate.
    + apply Forall_app. split.
      * eapply Forall_impl; [|exact Ho]. simpl. intros a Ha. lia.
      * constructor; [|constructor]. simpl. rewrite Hr. lia.
  - constructor.
  - rewrite concat_app. simpl. rewrite !app_nil_r, app_assoc, map_app, Hx, map_app.
    simpl. rewrite Hp. reflexivity.
Qed.

(** Once the extraction file is closed nothing is written to it. *)
Lemma extract_inv_closed pre line st st' :
  ExtractInv pre st ->
  extracting st = false ->
  extracting st' = false ->
  f_extract st' = f_extract st ->
  ExtractInv (pre ++ [line]) st'.
Proof.
  unfold extract_inv. intros H Hx Hx' He'. rewrite Hx in H. rewrite Hx', He'.
  destruct H as (H1 & H2 & H3). repeat split; try tauto.
  - rewrite length_app. lia.
  - rewrite firstn_prefix by exact H2. apply H3.
  - rewrite firstn_prefix by exact H2. apply H3.
Qed.

(** The extraction of the first unit grows by the line just written. *)
Lemma extract_ok_snoc pre E line p target_name target_element :
  extract_ok py_float oligomer_info pre E ->
  read_xyz py_float line = Some p ->
  nth_error oligomer_info (List.length pre) = Some (target_name, target_element) ->
  get_pdb_element line = target_element ->
  extract_ok py_float oligomer_info (pre ++ [line])
             (E ++ [mk_atom (List.length pre + 1) (get_pdb_element line) "MOL" 1 p]).
Proof.
  intros [H1 H2] Hp Hnth Hel. split.
  - rewrite map_app, H1, extracted_from_snoc. simpl.
    unfold extracted_line. rewrite Hp. reflexivity.
  - rewrite map_app, H2, length_app.
    replace (List.length pre + List.length [line]) with (S (List.length pre))
      by (simpl; lia).
    rewrite (firstn_snoc _ _ target_element).
    + simpl. rewrite Hel. reflexivity.
    + rewrite nth_error_map, Hnth. reflexivity.
Qed.

(** The extraction file across one record of the oligomer branch: the line
    is added while the first unit is read, and the file is closed with the
    unit. *)
Lemma extract_inv_oligomer pre st line p target_name target_element st' :
  ExtractInv pre st ->
  List.length pre = mol_idx st * apo + atom_in_mol_idx st ->
  read_xyz py_float line = Some p ->
  nth_error oligomer_info (atom_in_mol_idx st) = Some (target_name, target_element) ->
  get_pdb_element line = target_element ->
  f_extract st'
  = (if extracting st
     then f_extract st
          ++ [mk_atom (atom_in_mol_idx st + 1) (get_pdb_element line) "MOL" 1 p]
     else f_extract st) ->
  (extracting st' = false /\ atom_in_mol_idx st + 1 = apo)
  \/ (extracting st' = extracting st /\ current_mol_type st' = oligomer
      /\ mol_idx st' = mol_idx st) ->
  ExtractInv (pre ++ [line]) st'.
Proof.
  intros HE Hn Hp Hnth Hel Hf Hcase.
  assert (Haim : atom_in_mol_idx st < apo) by (apply nth_error_Some; congruence).
  destruct (extracting st) eqn:Hx.
  - unfold extract_inv in HE. rewrite Hx in HE. destruct HE as (_ & Hm & Hok).
    rewrite Hm in Hn. simpl in Hn.
    assert (Hok' : extract_ok py_float oligomer_info (pre ++ [line]) (f_extract st')).
    { rewrite Hf, <- Hn.
      apply (extract_ok_snoc _ _ _ _ target_name target_element); auto.
      rewrite Hn. exact Hnth. }
    unfold extract_inv.
    destruct Hcase as [[Hx' Hlast] | (Hx' & Hph' & Hm')].
    + rewrite Hx'. repeat split; try lia.
      * rewrite length_app. simpl. lia.
      * rewrite firstn_all2 by (rewrite length_app; simpl; lia). apply Hok'.
      * rewrite firstn_all2 by (rewrite length_app; simpl; lia). apply Hok'.
    + rewrite Hx'. repeat split; try tauto; try congruence; apply Hok'.
  - apply (extract_inv_closed pre line st st'); auto.
    destruct Hcase as [[Hx' _] | (Hx' & _)]; congruence.
Qed.

Lemma step_oligomer_inv pre rs cur st line p st' :
  Inv pre rs cur st ->
  current_mol_type st = oligomer ->
  read_xyz py_float line = Some p ->
  step_oligomer oligomer_info num_oligomers num_ions num_waters
                (S (List.length pre)) (get_pdb_element line) p st = inr st' ->
  exists rs' cur', Inv (pre ++ [line]) rs' cur' st'.
Proof.
  intros [HC HP HE] Hph Hp. unfold step_oligomer, atoms_per_oligomer.
  unfold phase_inv in HP. rewrite Hph in HP. destruct HP as (Hc & Hb & Hn).
  destruct (nth_error oligomer_info (atom_in_mol_idx st)) as [[tn te]|] eqn:Hnth;
    [|discriminate].
  destruct (String.eqb_spec (get_pdb_element line) te) as [Hel|Hel]; [|discriminate].
  assert (Haim : atom_in_mol_idx st < apo) by (apply nth_error_Some; congruence).
  cbv [negb].
  destruct (Nat.eqb_spec (atom_in_mol_idx st + 1) apo) as [Hlast|Hmore].
  - destruct (Nat.eqb_spec (mol_idx st + 1) num_oligomers) as [HU|HU];
      intros [= <-];
      (eexists; eexists; constructor;
       [ eapply core_close; core_side
       | unfold phase_inv; cbn [current_mol_type mol_idx atom_in_mol_idx]
       | eapply extract_inv_oligomer; try core_side;
         left; split; [reflexivity | assumption] ]).
    + rewrite length_app. cbn [List.length].
      destruct (0 <? num_ions) eqn:HI; [|destruct (0 <? num_waters) eqn:HW].
      * repeat split; lia.
      * apply Nat.ltb_ge in HI. repeat split; lia.
      * apply Nat.ltb_ge in HI. apply Nat.ltb_ge in HW.
        repeat split; lia.
    + rewrite length_app. cbn [List.length]. repeat split; lia.
  - intros [= <-].
    eexists; eexists; constructor;
      [ eapply core_push; core_side
      | unfold phase_inv; cbn [current_mol_type mol_idx atom_in_mol_idx]
      | eapply extract_inv_oligomer; try core_side;
        right; repeat split; reflexivity ].
    rewrite !length_app. cbn [List.length]. repeat split; lia.
Qed.

Lemma extracting_only_oligomer pre st :
  ExtractInv pre st -> current_mol_type st <> oligomer -> extracting st = false.
Proof.
  unfold extract_inv. destruct (extracting st); [|reflexivity].
  intros (H & _) Hne. contradiction.
Qed.

Lemma step_ion_inv pre rs cur st line p st' :
  Inv pre rs cur st ->
  current_mol_type st = ion ->
  read_xyz py_float line = Some p ->
  step_ion num_ions num_waters (S (List.length pre)) (get_pdb_element line) p st
  = inr st' ->
  exists rs' cur', Inv (pre ++ [line]) rs' cur' st'.
Proof.
  intros [HC HP HE] Hph Hp. unfold step_ion.
  unfold phase_inv in HP. rewrite Hph in HP. destruct HP as (Hc & HU & Hn).
  assert (Hx : extracting st = false)
    by (apply (extracting_only_oligomer pre); [exact HE | congruence]).
  assert (Hcur : cur = []) by (destruct cur; [reflexivity | discriminate]).
  assert (Hbuf : current_residue_lines st = [])
    by (rewrite (inv_buffer _ _ _ _ _ _ HC), Hcur; reflexivity).
  destruct (String.eqb_spec (get_pdb_element line) "Cl") as [Hel|Hel]; [|discriminate].
  cbv [negb].
  destruct (Nat.eqb_spec (mol_idx st + 1) num_ions) as [HI|HI];
    intros [= <-];
    (eexists; eexists; constructor;
     [ eapply core_close; try core_side; cbn; rewrite ?Hbuf; reflexivity
     | unfold phase_inv; cbn [current_mol_type mol_idx atom_in_mol_idx]
     | eapply extract_inv_closed; core_side ]).
  - rewrite length_app. cbn [List.length].
    destruct (0 <? num_waters) eqn:HW.
    + repeat split; lia.
    + apply Nat.ltb_ge in HW. repeat split; lia.
  - rewrite length_app. cbn [List.length]. repeat split; lia.
Qed.

Lemma step_water_inv pre rs cur st line p st' :
  Inv pre rs cur st ->
  current_mol_type st = water ->
  read_xyz py_float line = Some p ->
  step_water num_waters (S (List.length pre)) (get_pdb_element line) p st = inr st' ->
  exists rs' cur', Inv (pre ++ [line]) rs' cur' st'.
Proof.
  intros [HC HP HE] Hph Hp. unfold step_water.
  unfold phase_inv in HP. rewrite Hph in HP. destruct HP as (Hc & Ha & HU & Hn).
  assert (Hx : extracting st = false)
    by (apply (extracting_only_oligomer pre); [exact HE | congruence]).
  destruct (nth_error water_atom_names (atom_in_mol_idx st)) as [name|]; [|discriminate].
  destruct (nth_error water_elements (atom_in_mol_idx st)) as [te|]; [|discriminate].
  destruct (negb _); [discriminate|].
  destruct (Nat.eqb_spec (atom_in_mol_idx st + 1) 3) as [Hlast|Hmore].
  - intros [= <-].
    eexists; eexists; constructor;
      [ eapply core_close; core_side
      | unfold phase_inv; cbn [current_mol_type mol_idx atom_in_mol_idx]
      | eapply extract_inv_closed; core_side ].
    rewrite length_app. cbn [List.length].
    destruct (Nat.eqb_spec (mol_idx st + 1) num_waters) as [HW|HW];
      repeat split; lia.
  - intros [= <-].
    eexists; eexists; constructor;
      [ eapply core_push; core_side
      | unfold phase_inv; cbn [current_mol_type mol_idx atom_in_mol_idx]
      | eapply extract_inv_closed; core_side ].
    rewrite !length_app. cbn [List.length]. repeat split; lia.
Qed.

(** Every record that is processed keeps the invariant. *)
Lemma step_inv pre rs cur st line st' :
  Inv pre rs cur st ->
  current_mol_type st <> done ->
  run_step (S (List.length pre)) line st = inr st' ->
  exists rs' cur', Inv (pre ++ [line]) rs' cur' st'.
Proof.
  intros HI Hnd. unfold step.
  destruct (read_xyz py_float line) as [p|] eqn:Hp; [|discriminate].
  destruct (current_mol_type st) eqn:Hph.
  - intros H. eapply step_oligomer_inv; eauto.
  - intros H. eapply step_ion_inv; eauto.
  - intros H. eapply step_water_inv; eauto.
  - contradiction.
Qed.

Lemma main_loop_running n line rest st :
  current_mol_type st <> done ->
  run_loop n (line :: rest) st
  = match run_step n line st with
    | inl e => Aborted e st
    | inr st1 => run_loop (S n) rest st1
    end.
Proof. intros H. simpl. destruct (current_mol_type st); [reflexivity .. | contradiction]. Qed.

Lemma main_loop_break n line rest st :
  current_mol_type st = done ->
  run_loop n (line :: rest) st = Completed st (line :: rest).
Proof. intros H. simpl. rewrite H. reflexivity. Qed.

Lemma mol_type_done_dec (t : mol_type) : {t = done} + {t <> done}.
Proof. destruct t; (left; reflexivity) || (right; discriminate). Defined.

(** A run that has read all of [pre] goes on with what follows it. *)
Lemma main_loop_app : forall pre n st st' rest,
  run_loop n pre st = Completed st' [] ->
  run_loop n (pre ++ rest) st = run_loop (n + List.length pre) rest st'.
Proof.
  induction pre as [|line pre IH]; intros n st st' rest H.
  - simpl in H. injection H as <-. rewrite Nat.add_0_r. reflexivity.
  - destruct (mol_type_done_dec (current_mol_type st)) as [Hd|Hd].
    + rewrite main_loop_break in H by exact Hd. discriminate.
    + rewrite <- app_comm_cons. rewrite main_loop_running in * by exact Hd.
      destruct (run_step n line st) as [e|st1]; [discriminate|].
      rewrite (IH _ _ _ rest H). simpl. f_equal. lia.
Qed.

(** The invariant holds where the loop is left, and the records split into
    those read and those left; a run that stops leaves the record it stopped
    at. *)
Lemma main_loop_inv : forall rest pre rs cur st,
  Inv pre rs cur st ->
  exists used left rs' cur',
    rest = used ++ left
    /\ Inv (pre ++ used) rs' cur' (final_state (run_loop (S (List.length pre)) rest st))
    /\ match run_loop (S (List.length pre)) rest st with
       | Completed st' un => un = left /\ (left = [] \/ current_mol_type st' = done)
       | Aborted e st' =>
           exists line left',
             left = line :: left' /\ current_mol_type st' <> done
             /\ run_step (S (List.length (pre ++ used))) line st' = inl e
       end.
Proof.
  induction rest as [|line rest IH]; intros pre rs cur st HI.
  - exists [], [], rs, cur. simpl. rewrite app_nil_r. auto.
  - destruct (mol_type_done_dec (current_mol_type st)) as [Hd|Hd].
    + rewrite main_loop_break by exact Hd.
      exists [], (line :: rest), rs, cur. simpl. rewrite app_nil_r. auto.
    + rewrite main_loop_running by exact Hd.
      destruct (run_step (S (List.length pre)) line st) as [e|st1] eqn:Hs.
      * exists [], (line :: rest), rs, cur. simpl. rewrite app_nil_r.
        split; [reflexivity|]. split; [exact HI|].
        exists line, rest. auto.
      * destruct (step_inv _ _ _ _ _ _ HI Hd Hs) as (rs1 & cur1 & HI1).
        destruct (IH _ _ _ _ HI1) as (used & left & rs' & cur' & Hsplit & HI' & Hres).
        rewrite length_app in HI', Hres. simpl in HI', Hres.
        rewrite Nat.add_1_r in HI', Hres.
        exists (line :: used), left, rs', cur'.
        rewrite <- app_assoc in HI', Hres. simpl in HI', Hres.
        split; [simpl; congruence|]. split; [exact HI'|exact Hres].
Qed.

(** The same from the initial state. *)
Lemma main_loop_from_start (atom_lines : list string) :
  exists used left rs cur,
    atom_lines = used ++ left
    /\ Inv used rs cur (final_state (run_loop 1 atom_lines (initial_state header_lines)))
    /\ match run_loop 1 atom_lines (initial_state header_lines) with
       | Completed st' un => un = left /\ (left = [] \/ current_mol_type st' = done)
       | Aborted e st' =>
           exists line left',
             left = line :: left' /\ current_mol_type st' <> done
             /\ run_step (S (List.length used)) line st' = inl e
       end.
Proof.
  destruct (main_loop_inv atom_lines [] [] [] _ initial_state_inv)
    as (used & left & rs & cur & H1 & H2 & H3).
  exists used, left, rs, cur. auto.
Qed.

End Machine.

(** ** What the invariant gives *)

Lemma seq_prefix (l1 : list nat) : forall l2 a n,
  l1 ++ l2 = seq a n -> l1 = seq a (List.length l1).
Proof.
  induction l1 as [|x l1 IH]; intros l2 a n H; [reflexivity|].
  destruct n as [|n]; simpl in H; [discriminate|].
  injection H as -> H. simpl. f_equal. eapply IH. exact H.
Qed.


Section Consequences.

Context {coord : Type}.
Variable py_float : string -> option coord.

Lemma render_lines (rs : list (list (atom_record coord))) (l : pdb_line coord) :
  In l (render rs) -> l = TerLine \/ exists a, l = Atom a /\ In a (concat rs).
Proof.
  induction rs as [|r rs IH]; simpl; [contradiction|].
  unfold render_residue. rewrite !in_app_iff. intros [[H|H]|H].
  - apply in_map_iff in H. destruct H as (a & <- & Ha).
    right. exists a. split; [reflexivity|]. apply in_app_iff. auto.
  - simpl in H. destruct H as [<-|[]]. auto.
  - destruct (IH H) as [->|(a & -> & Ha)]; [auto|].
    right. exists a. split; [reflexivity|]. apply in_app_iff. auto.
Qed.

(** The lines of the extraction file, read off [extracted_from]. *)
Lemma extracted_from_facts (ls : list string) : forall j (E : list (atom_record coord)),
  map Some E = extracted_from py_float j ls ->
  List.length E = List.length ls
  /\ map serial E = seq (j + 1) (List.length ls)
  /\ map atom_name E = map get_pdb_element ls
  /\ Forall (fun a => res_seq a = 1 /\ res_name a = "MOL") E.
Proof.
  induction ls as [|line ls IH]; intros j E H.
  - destruct E; [|discriminate]. simpl. auto.
  - destruct E as [|a E]; [discriminate|]. simpl in H. injection H as Ha HE.
    destruct (IH _ _ HE) as (H1 & H2 & H3 & H4).
    unfold extracted_line in Ha.
    destruct (read_xyz py_float line) as [p|]; [|discriminate].
    simpl in Ha. injection Ha as ->. simpl.
    rewrite H1, H2, H3. replace (S j + 1) with (S (j + 1)) by lia.
    repeat split; auto.
Qed.

Variable header_lines : list string.
Variable oligomer_info : list (string * string).
Variables num_oligomers num_ions num_waters : nat.

Local Abbreviation apo := (List.length oligomer_info).
Local Abbreviation Inv :=
  (loop_inv py_float header_lines oligomer_info num_oligomers num_ions num_waters).
Local Abbreviation run_loop :=
  (main_loop py_float oligomer_info num_oligomers num_ions num_waters).

(** The serial numbers of the closed residues are 1, 2, 3, ... *)
Lemma closed_serials pre rs cur st :
  Inv pre rs cur st ->
  map serial (concat rs) = seq 1 (List.length (concat rs))
  /\ List.length (concat rs) + List.length cur = List.length pre.
Proof.
  intros [HC _ _]. pose proof (inv_serials _ _ _ _ _ _ HC) as Hs.
  split.
  - rewrite map_app in Hs. apply seq_prefix in Hs. rewrite length_map in Hs. exact Hs.
  - apply (f_equal (@List.length nat)) in Hs.
    rewrite length_map, length_app, length_seq in Hs. exact Hs.
Qed.


(** While the extraction file is open the first unit is not complete. *)
Lemma extract_closed_after_first_unit pre rs cur st :
  Inv pre rs cur st -> 1 <= apo -> apo <= List.length pre ->
  extracting st = false
  /\ map Some (f_extract st) = extracted_from py_float 0 (firstn apo pre)
  /\ map get_pdb_element (firstn apo pre) = map snd oligomer_info.
Proof.
  intros [HC HP HE] Hpos Hlen. unfold extract_inv in HE.
  destruct (extracting st) eqn:Hx.
  - destruct HE as (Hph & Hm & _). unfold phase_inv in HP.
    rewrite Hph, Hm in HP. simpl in HP. lia.
  - destruct HE as (_ & _ & H1 & H2). repeat split; auto.
    rewrite H2, length_firstn, Nat.min_l by exact Hlen.
    rewrite <- (length_map snd oligomer_info). apply firstn_all.
Qed.

End Consequences.

(** A completed [process_pdb]: the counts it ran with, the records read and
    left, and the invariant before [END] was written. *)
Lemma process_pdb_completed {coord : Type} (py_float : string -> option coord)
      (fuel : nat) (cfg : manual_config) (input_pdb mol2_template : list string)
      (st : state coord) (un : list string) :
  process_pdb py_float fuel cfg input_pdb mol2_template = Some (Completed st un) ->
  exists detected U I W st0 used rs cur,
    auto_detect_counts fuel (atom_lines_of input_pdb)
                       (List.length (load_atom_names_from_mol2 mol2_template))
    = Some detected
    /\ fallback_counts cfg detected = (U, I, W)
    /\ st = write_end st0
    /\ atom_lines_of input_pdb = used ++ un
    /\ loop_inv py_float (header_lines_of input_pdb)
                (load_atom_names_from_mol2 mol2_template) U I W used rs cur st0
    /\ (un = [] \/ current_mol_type st0 = done).
Proof.
  unfold process_pdb.
  destruct (auto_detect_counts _ _ _) as [detected|]; [|discriminate].
  destruct (fallback_counts cfg detected) as [[U I] W] eqn:Hfb.
  unfold reconstruct. intros H.
  destruct (main_loop_from_start py_float (header_lines_of input_pdb)
              (load_atom_names_from_mol2 mol2_template) U I W (atom_lines_of input_pdb))
    as (used & left & rs & cur & Hsplit & HI & Hres).
  destruct (main_loop _ _ _ _ _ _ _ _) as [st0 un0|e st0]; [|discriminate].
  injection H as <- <-. destruct Hres as [-> Hend].
  exists detected, U, I, W, st0, used, rs, cur. auto 10.
Qed.


Lemma skipn_exact {A : Type} (l1 l2 : list A) :
  skipn (List.length l1) (l1 ++ l2) = l2.
Proof. rewrite skipn_app, skipn_all, Nat.sub_diag. reflexivity. Qed.


(** * The detector: claims C9, C10 and C2 *)

(** C9.  A record list at least as long as a non-empty template yields at
    least one unit: the pattern is read from the first window, and the scan
    starts by comparing that window with it.  Hence a returned all-zero
    result means the list is shorter than the template. *)
Theorem first_window_counts_as_unit (atom_lines : list string) (atoms_per_olig : nat) :
  (1 <= atoms_per_olig ->
   atoms_per_olig <= List.length atom_lines ->
   exists num_olig num_ion num_wat,
     (forall fuel, List.length atom_lines < fuel ->
                   auto_detect_counts fuel atom_lines atoms_per_olig
                   = Some (num_olig, num_ion, num_wat))
     /\ 1 <= num_olig)
  /\ (forall fuel,
        auto_detect_counts fuel atom_lines atoms_per_olig = Some (0, 0, 0) ->
        List.length atom_lines < atoms_per_olig).
Proof.
  split.
  - intros Hpos Hlen.
    destruct (auto_detect_counts_total atom_lines atoms_per_olig Hpos)
      as [[[no ni] nw] Hr].
    exists no, ni, nw. split; [exact Hr|].
    apply (auto_detect_counts_first_unit atom_lines atoms_per_olig
             (S (List.length atom_lines)) no ni nw Hlen).
    apply Hr. lia.
  - intros fuel H.
    destruct (Nat.lt_ge_cases (List.length atom_lines) atoms_per_olig) as [Hlt|Hge];
      [exact Hlt|].
    pose proof (auto_detect_counts_first_unit _ _ _ _ _ _ Hge H). lia.
Qed.

Lemma first_window_counts_as_unit_witness :
  (exists num_olig num_ion num_wat,
      (forall fuel, List.length junk_pdb < fuel ->
                    auto_detect_counts fuel junk_pdb 2 = Some (num_olig, num_ion, num_wat))
      /\ 1 <= num_olig)
  /\ List.length (atom_lines_of short_pdb) < 2.
Proof.
  split.
  - apply (proj1 (first_window_counts_as_unit junk_pdb 2)); simpl; lia.
  - apply (proj2 (first_window_counts_as_unit (atom_lines_of short_pdb) 2) 0).
    reflexivity.
Defined.

(** C10.  With a template of at least one atom the detector returns on every
    record list: each round of its loops moves the cursor forward, so a fuel
    above the number of records is never used up.  With a template of no
    atom the first loop never ends, on any record list, the empty one
    included: the cursor stays where it is. *)
Theorem detection_terminates_unless_template_empty :
  (forall atom_lines atoms_per_olig,
      1 <= atoms_per_olig ->
      exists r, forall fuel, List.length atom_lines < fuel ->
                             auto_detect_counts fuel atom_lines atoms_per_olig = Some r)
  /\ (forall atom_lines fuel,
         scan_oligomers fuel atom_lines (map name_field (firstn 0 atom_lines)) 0 0 0 = None
         /\ auto_detect_counts fuel atom_lines 0 = None).
Proof.
  split.
  - intros atom_lines atoms_per_olig Hpos.
    exact (auto_detect_counts_total atom_lines atoms_per_olig Hpos).
  - intros atom_lines fuel. split.
    + apply scan_oligomers_empty_window; [reflexivity | lia].
    + apply auto_detect_counts_empty_template. reflexivity.
Qed.

Lemma detection_terminates_unless_template_empty_witness :
  exists r, forall fuel, List.length (atom_lines_of demo_pdb) < fuel ->
                         auto_detect_counts fuel (atom_lines_of demo_pdb) 2 = Some r.
Proof.
  apply (proj1 detection_terminates_unless_template_empty (atom_lines_of demo_pdb) 2).
  lia.
Defined.

(** A template file can yield no atom, and [process_pdb] then never gets past
    the detector. *)
Lemma empty_template_no_atoms : load_atom_names_from_mol2 empty_mol2 = [].
Proof. reflexivity. Qed.

Lemma process_pdb_empty_template {coord : Type} (py_float : string -> option coord)
      (fuel : nat) (cfg : manual_config) (input_pdb mol2_template : list string) :
  load_atom_names_from_mol2 mol2_template = [] ->
  process_pdb py_float fuel cfg input_pdb mol2_template = None.
Proof.
  intros H. unfold process_pdb. rewrite H.
  rewrite auto_detect_counts_empty_template; reflexivity.
Qed.

(** C2, as stated, fails: two records that are no template atom, no ion and
    no water are counted as one unit, because the pattern is read from the
    stream itself. *)
Lemma junk_records_detected_as_unit :
  forallb (matches_no_pattern (load_atom_names_from_mol2 two_atom_mol2)) junk_pdb = true
  /\ auto_detect_counts 3 (atom_lines_of junk_pdb)
                        (List.length (load_atom_names_from_mol2 two_atom_mol2))
     = Some (1, 0, 0)
  /\ fallback_counts shipped_config (1, 0, 0) = (1, 0, 0).
Proof. vm_compute. auto. Qed.

(** C2, amended.  A record list shorter than the template, the empty list
    under a non-empty template among them, gives the result (0,0,0); and
    whenever the detector returns (0,0,0), [process_pdb] runs the
    reconstruction with the manual counts of the configuration. *)
Theorem short_stream_falls_back {coord : Type} (py_float : string -> option coord)
        (cfg : manual_config) (input_pdb mol2_template : list string) (fuel : nat) :
  let atom_lines := atom_lines_of input_pdb in
  let oligomer_info := load_atom_names_from_mol2 mol2_template in
  (List.length atom_lines < List.length oligomer_info ->
   auto_detect_counts fuel atom_lines (List.length oligomer_info) = Some (0, 0, 0))
  /\ (auto_detect_counts fuel atom_lines (List.length oligomer_info) = Some (0, 0, 0) ->
      fallback_counts cfg (0, 0, 0)
      = (MANUAL_NUM_OLIGOMERS cfg, MANUAL_NUM_IONS cfg, MANUAL_NUM_WATERS cfg)
      /\ process_pdb py_float fuel cfg input_pdb mol2_template
         = Some (reconstruct py_float oligomer_info
                             (MANUAL_NUM_OLIGOMERS cfg) (MANUAL_NUM_IONS cfg)
                             (MANUAL_NUM_WATERS cfg)
                             (header_lines_of input_pdb) atom_lines)).
Proof.
  intros atom_lines oligomer_info. split.
  - apply auto_detect_counts_short.
  - intros H. split; [reflexivity|].
    unfold process_pdb. fold atom_lines oligomer_info. rewrite H. reflexivity.
Qed.

Lemma short_stream_falls_back_witness :
  auto_detect_counts 1 (atom_lines_of short_pdb)
                     (List.length (load_atom_names_from_mol2 two_atom_mol2))
  = Some (0, 0, 0)
  /\ process_pdb PyFloat.py_float_text 1 shipped_config short_pdb two_atom_mol2
     = Some (reconstruct PyFloat.py_float_text (load_atom_names_from_mol2 two_atom_mol2)
                         64 48 1624 (header_lines_of short_pdb) (atom_lines_of short_pdb)).
Proof.
  pose proof (short_stream_falls_back PyFloat.py_float_text shipped_config
                                      short_pdb two_atom_mol2 1) as [H1 H2].
  split.
  - apply H1. vm_compute. lia.
  - apply H2. apply H1. vm_compute. lia.
Defined.

(** * The reconstruction: claims C5, C8 and C4 *)

(** C5.  In the main output of a run that does not abort, the atom lines
    carry the serial numbers 1, 2, 3, ... in the order they stand in the
    file, and the closed residue at position [k] (from 0) is not empty and
    carries the number [k+1] on all its lines: the numbers go up by one from
    each closed residue to the next and never restart.  In the extraction
    file every line carries the residue number 1. *)
Theorem output_numbering_gapless {coord : Type} (py_float : string -> option coord)
        (fuel : nat) (cfg : manual_config) (input_pdb mol2_template : list string)
        (st : state coord) (un : list string) :
  process_pdb py_float fuel cfg input_pdb mol2_template = Some (Completed st un) ->
  exists rs,
    fout st = map Header (header_lines_of input_pdb) ++ render rs ++ [EndLine]
    /\ map serial (concat rs) = seq 1 (List.length (concat rs))
    /\ (forall k r, nth_error rs k = Some r ->
                    r <> [] /\ Forall (fun a => res_seq a = k + 1) r)
    /\ Forall (fun a => res_seq a = 1) (f_extract st).
Proof.
  intros H. apply process_pdb_completed in H.
  destruct H as (detected & U & I & W & st0 & used & rs & cur
                 & _ & _ & -> & _ & HI & _).
  exists rs. repeat split.
  - simpl. rewrite (inv_fout _ _ _ _ _ _ (inv_core _ _ _ _ _ _ _ _ _ _ HI)).
    rewrite <- app_assoc. reflexivity.
  - eapply closed_serials. exact HI.
  - eapply numbered_from_nth in H; [apply H|].
    apply (inv_numbered _ _ _ _ _ _ (inv_core _ _ _ _ _ _ _ _ _ _ HI)).
  - eapply numbered_from_nth in H;
      [|apply (inv_numbered _ _ _ _ _ _ (inv_core _ _ _ _ _ _ _ _ _ _ HI))].
    destruct H as [_ H]. rewrite Nat.add_comm. exact H.
  - simpl. pose proof (inv_extract _ _ _ _ _ _ _ _ _ _ HI) as HE.
    unfold extract_inv in HE.
    assert (exists ls, map Some (f_extract st0) = extracted_from py_float 0 ls)
      as [ls Hls].
    { destruct (extracting st0).
      - destruct HE as (_ & _ & Hok & _). eauto.
      - destruct HE as (_ & _ & Hok & _). eauto. }
    apply extracted_from_facts in Hls. destruct Hls as (_ & _ & _ & Hall).
    eapply Forall_impl; [|exact Hall]. simpl. tauto.
Qed.

Lemma output_numbering_gapless_witness :
  exists st un,
    process_pdb PyFloat.py_float_text 10 shipped_config demo_pdb two_atom_mol2
    = Some (Completed st un)
    /\ exists rs,
      fout st = map Header (header_lines_of demo_pdb) ++ render rs ++ [EndLine]
      /\ map serial (concat rs) = seq 1 (List.length (concat rs))
      /\ (forall k r, nth_error rs k = Some r ->
                      r <> [] /\ Forall (fun a => res_seq a = k + 1) r)
      /\ Forall (fun a => res_seq a = 1) (f_extract st).
Proof.
  eexists. eexists. split.
  - vm_compute. reflexivity.
  - eapply (output_numbering_gapless PyFloat.py_float_text 10 shipped_config
                                     demo_pdb two_atom_mol2).
    vm_compute. reflexivity.
Defined.



(** C4.  The counts the detector returns on a record list cover no more
    records than the list has; and a run of [process_pdb] that completes in
    the [done] phase has read exactly
    [unit_count * atoms_per_unit + ion_count + 3 * solvent_count] records,
    the counts being the detected ones, and has left the others unread. *)
Theorem counts_bound_and_records_consumed
        {coord : Type} (py_float : string -> option coord) :
  (forall atom_lines atoms_per_olig fuel num_olig num_ion num_wat,
      auto_detect_counts fuel atom_lines atoms_per_olig
      = Some (num_olig, num_ion, num_wat) ->
      num_olig * atoms_per_olig + num_ion + 3 * num_wat <= List.length atom_lines)
  /\ (forall fuel cfg input_pdb mol2_template num_olig num_ion num_wat st un,
         let atom_lines := atom_lines_of input_pdb in
         let atoms_per_olig := List.length (load_atom_names_from_mol2 mol2_template) in
         auto_detect_counts fuel atom_lines atoms_per_olig
         = Some (num_olig, num_ion, num_wat) ->
         process_pdb py_float fuel cfg input_pdb mol2_template = Some (Completed st un) ->
         current_mol_type st = done ->
         atom_counter st = num_olig * atoms_per_olig + num_ion + 3 * num_wat
         /\ un = skipn (num_olig * atoms_per_olig + num_ion + 3 * num_wat) atom_lines).
Proof.
  split.
  - intros atom_lines apo fuel no ni nw Hdet.
    exact (auto_detect_counts_bound atom_lines apo fuel _ _ _ Hdet).
  - intros fuel cfg input_pdb mol2_template num_olig num_ion num_wat st un
           atom_lines apo Hdet H Hdone.
    apply process_pdb_completed in H.
    destruct H as (detected & U & I & W & st0 & used & rs & cur
                   & Hdet' & Hfb & -> & Hsplit & HI & _).
    fold atom_lines apo in Hdet', Hsplit. rewrite Hdet in Hdet'.
    injection Hdet' as <-. simpl in Hdone.
    pose proof (inv_phase _ _ _ _ _ _ _ _ _ _ HI) as HP.
    unfold phase_inv in HP. rewrite Hdone in HP. destruct HP as (_ & HU & Hn).
    pose proof (inv_counter _ _ _ _ _ _ (inv_core _ _ _ _ _ _ _ _ _ _ HI)) as Hc.
    fold apo in Hn.
    assert (Hlen : List.length atom_lines = List.length used + List.length un)
      by (rewrite Hsplit; apply length_app).
    assert (Hcounts : (U, I, W) = (num_olig, num_ion, num_wat)).
    { unfold fallback_counts in Hfb.
      destruct ((num_olig =? 0) && (num_ion =? 0) && (num_wat =? 0)) eqn:Hz;
        [|congruence].
      apply andb_prop in Hz. destruct Hz as [Hz Hw].
      apply andb_prop in Hz. destruct Hz as [Ho Hi].
      apply Nat.eqb_eq in Ho, Hi, Hw. subst num_olig num_ion num_wat.
      assert (List.length atom_lines < apo).
      { destruct (Nat.lt_ge_cases (List.length atom_lines) apo) as [Hlt|Hge];
          [exact Hlt|].
        pose proof (auto_detect_counts_first_unit _ _ _ _ _ _ Hge Hdet). lia. }
      nia. }
    injection Hcounts as -> -> ->.
    split; [unfold write_end; cbn [atom_counter]; lia|].
    rewrite <- Hn, Hsplit. symmetry. apply skipn_exact.
Qed.

Lemma counts_bound_and_records_consumed_witness :
  2 * 2 + 1 + 3 * 1 <= List.length (atom_lines_of demo_pdb)
  /\ exists st un,
      process_pdb PyFloat.py_float_text 10 shipped_config demo_pdb two_atom_mol2
      = Some (Completed st un)
      /\ atom_counter st = 2 * 2 + 1 + 3 * 1
      /\ un = skipn (2 * 2 + 1 + 3 * 1) (atom_lines_of demo_pdb).
Proof.
  assert (Hdet : auto_detect_counts 10 (atom_lines_of demo_pdb)
                   (List.length (load_atom_names_from_mol2 two_atom_mol2))
                 = Some (2, 1, 1)) by (vm_compute; reflexivity).
  destruct (counts_bound_and_records_consumed PyFloat.py_float_text) as [Hbound Hrun].
  split.
  - exact (Hbound _ _ _ _ _ _ Hdet).
  - eexists. eexists. split; [vm_compute; reflexivity|].
    apply (Hrun 10 shipped_config demo_pdb two_atom_mol2 2 1 1).
    + exact Hdet.
    + vm_compute. reflexivity.
    + vm_compute. reflexivity.
Defined.

(** * The extraction file: claim C1 *)

(** C1, as stated, fails on the atom names: the extraction branch writes the
    classified element of each record where the main output writes the
    template's name. *)
Lemma extraction_names_are_elements :
  exists st un,
    process_pdb PyFloat.py_float_text 10 shipped_config demo_pdb two_atom_mol2
    = Some (Completed st un)
    /\ map atom_name (f_extract st) = ["C"; "H"]
    /\ map fst (load_atom_names_from_mol2 two_atom_mol2) = ["C1"; "H1"]
    /\ map atom_name (f_extract st) <> map fst (load_atom_names_from_mol2 two_atom_mol2).
Proof.
  eexists. eexists. split; [vm_compute; reflexivity|].
  split; [reflexivity|]. split; [reflexivity|]. vm_compute. discriminate.
Qed.

(** C1, amended.  When the first [N] records, [N >= 1] the length of the
    template, are read without a fatal error, the extraction file holds
    exactly [N] atom lines, with the serial numbers 1..N in order, the
    residue number 1 on each, and as atom names the element symbols of the
    template in order (which are the classified elements of the records); the
    file is closed at that point, and holds the same lines in the state in
    which the whole run ends. *)
Theorem extraction_holds_first_unit
        {coord : Type} (py_float : string -> option coord)
        (header_lines : list string) (oligomer_info : list (string * string))
        (num_oligomers num_ions num_waters : nat)
        (atom_lines : list string) (st1 : state coord) :
  let N := List.length oligomer_info in
  let run := main_loop py_float oligomer_info num_oligomers num_ions num_waters 1 in
  1 <= N ->
  N <= List.length atom_lines ->
  run (firstn N atom_lines) (initial_state header_lines) = Completed st1 [] ->
  extracting st1 = false
  /\ List.length (f_extract st1) = N
  /\ map serial (f_extract st1) = seq 1 N
  /\ Forall (fun a => res_seq a = 1) (f_extract st1)
  /\ map atom_name (f_extract st1) = map snd oligomer_info
  /\ map atom_name (f_extract st1) = map get_pdb_element (firstn N atom_lines)
  /\ extracting (final_state (run atom_lines (initial_state header_lines))) = false
  /\ f_extract (final_state (run atom_lines (initial_state header_lines)))
     = f_extract st1.
Proof.
  intros N run Hpos Hlen Hrun.
  assert (HN : List.length (firstn N atom_lines) = N)
    by (rewrite length_firstn; lia).
  (* the invariant after the first unit *)
  destruct (main_loop_from_start py_float header_lines oligomer_info
              num_oligomers num_ions num_waters (firstn N atom_lines))
    as (used & left & rs & cur & Hsplit & HI & Hres).
  fold run in HI, Hres. rewrite Hrun in HI, Hres. simpl in HI.
  destruct Hres as [<- _]. rewrite app_nil_r in Hsplit. subst used.
  destruct (extract_closed_after_first_unit _ _ _ _ _ _ _ _ _ _ HI Hpos)
    as (Hx & HE & Hel); [fold N; lia|].
  fold N in HE, Hel. rewrite firstn_all2 in HE, Hel by lia.
  destruct (extracted_from_facts _ _ _ _ HE) as (F1 & F2 & F3 & F4).
  rewrite HN in F1, F2.
  (* the invariant where the whole run ends *)
  assert (Hwhole : run atom_lines (initial_state header_lines)
                   = main_loop py_float oligomer_info num_oligomers num_ions num_waters
                               (S (List.length (firstn N atom_lines)))
                               (skipn N atom_lines) st1).
  { rewrite <- (firstn_skipn N atom_lines) at 1. unfold run.
    rewrite (main_loop_app _ _ _ _ _ _ _ _ _ (skipn N atom_lines) Hrun).
    reflexivity. }
  destruct (main_loop_inv py_float header_lines oligomer_info
              num_oligomers num_ions num_waters (skipn N atom_lines) _ _ _ _ HI)
    as (used & left & rs' & cur' & _ & HI' & _).
  rewrite <- Hwhole in HI'.
  destruct (extract_closed_after_first_unit _ _ _ _ _ _ _ _ _ _ HI' Hpos)
    as (Hx' & HE' & _); [fold N; rewrite length_app; lia|].
  fold N in HE'. rewrite firstn_prefix in HE' by lia.
  rewrite firstn_all2 in HE' by lia.
  repeat split; auto.
  - eapply Forall_impl; [|exact F4]. simpl. tauto.
  - rewrite F3. exact Hel.
  - apply map_Some_inj. congruence.
Qed.

Lemma extraction_holds_first_unit_witness :
  exists st1,
    main_loop PyFloat.py_float_text (load_atom_names_from_mol2 two_atom_mol2) 2 1 1 1
              (firstn 2 (atom_lines_of demo_pdb))
              (initial_state (header_lines_of demo_pdb))
    = Completed st1 []
    /\ extracting st1 = false
    /\ List.length (f_extract st1) = 2
    /\ map serial (f_extract st1) = seq 1 2
    /\ map atom_name (f_extract st1) = ["C"; "H"].
Proof.
  eexists. split; [vm_compute; reflexivity|].
  edestruct (extraction_holds_first_unit
               PyFloat.py_float_text (header_lines_of demo_pdb)
               (load_atom_names_from_mol2 two_atom_mol2) 2 1 1 (atom_lines_of demo_pdb))
    as (H1 & H2 & H3 & _ & H5 & _).
  - vm_compute. lia.
  - vm_compute. lia.
  - vm_compute. reflexivity.
  - split; [exact H1|]. split; [exact H2|]. split; [exact H3|]. exact H5.
Defined.

(** * Fatal mismatches: claims C3, C7 and C6 *)



(** C7, as stated, fails where the record's coordinates do not parse: the
    coordinates are read before the element is looked at, and the run stops
    with the coordinate message, which names no element.  Here the third
    record is met in the ion phase and classifies as [Na]. *)
Lemma ion_with_blank_coordinates_reports_no_element :
  exists st,
    process_pdb PyFloat.py_float_text 10 shipped_config blank_ion_pdb two_atom_mol2
    = Some (Aborted (InvalidCoordinates 3) st)
    /\ current_mol_type st = ion
    /\ get_pdb_element (nth 2 (atom_lines_of blank_ion_pdb) "") = "Na"
    /\ read_xyz PyFloat.py_float_text (nth 2 (atom_lines_of blank_ion_pdb) "") = None.
Proof.
  eexists. split; [vm_compute; reflexivity|]. repeat split; reflexivity.
Qed.

(** C7, amended.  In the ion phase: a record whose coordinates do not parse
    stops the run with the coordinate message; a record whose coordinates
    parse and whose classified element is not [Cl] stops the run with the ion
    message, which gives the expected element [Cl] and the element found; a
    record whose coordinates parse and whose element is [Cl] is written at
    once as a residue of its own, one atom line with the atom name and
    residue name [Cl-] followed by [TER], whatever names the record had, and
    the loop goes on. *)
Theorem ion_phase_record
        {coord : Type} (py_float : string -> option coord)
        (oligomer_info : list (string * string))
        (num_oligomers num_ions num_waters : nat)
        (line_num : nat) (line : string) (rest : list string) (st : state coord) :
  let run := main_loop py_float oligomer_info num_oligomers num_ions num_waters in
  current_mol_type st = ion ->
  (read_xyz py_float line = None ->
   run line_num (line :: rest) st = Aborted (InvalidCoordinates line_num) st)
  /\ (forall p, read_xyz py_float line = Some p ->
                get_pdb_element line <> "Cl" ->
                run line_num (line :: rest) st
                = Aborted (IonMismatch line_num "Cl" (get_pdb_element line)) st)
  /\ (forall p, read_xyz py_float line = Some p ->
                get_pdb_element line = "Cl" ->
                exists st',
                  run line_num (line :: rest) st = run (S line_num) rest st'
                  /\ fout st'
                     = fout st ++ [Atom (mk_atom (atom_counter st + 1) "Cl-" "Cl-"
                                                 (residue_counter st + 1) p);
                                   TerLine]
                  /\ current_residue_lines st' = current_residue_lines st
                  /\ atom_counter st' = atom_counter st + 1
                  /\ residue_counter st' = residue_counter st + 1).
Proof.
  intros run Hph.
  assert (Hnd : current_mol_type st <> done) by congruence.
  unfold run. repeat split.
  - intros Hp. rewrite main_loop_running by exact Hnd.
    unfold step. rewrite Hp. reflexivity.
  - intros p Hp Hel. rewrite main_loop_running by exact Hnd.
    unfold step. rewrite Hp, Hph. unfold step_ion.
    destruct (String.eqb_spec (get_pdb_element line) "Cl");
      [contradiction | reflexivity].
  - intros p Hp Hel. rewrite main_loop_running by exact Hnd.
    unfold step. rewrite Hp, Hph. unfold step_ion. rewrite Hel. cbn [String.eqb negb].
    change (("Cl" =? "Cl")%string) with true. cbn [negb].
    destruct (mol_idx st + 1 =? num_ions);
      (eexists; split; [reflexivity|]; repeat split; reflexivity).
Qed.

Lemma ion_phase_record_witness :
  main_loop PyFloat.py_float_text (load_atom_names_from_mol2 two_atom_mol2) 1 3 0
            3 [blank_sodium_line] ion_phase_state
  = Aborted (InvalidCoordinates 3) ion_phase_state
  /\ main_loop PyFloat.py_float_text (load_atom_names_from_mol2 two_atom_mol2) 1 3 0
               3 [sodium_line] ion_phase_state
     = Aborted (IonMismatch 3 "Cl" "Na") ion_phase_state
  /\ exists st',
      main_loop PyFloat.py_float_text (load_atom_names_from_mol2 two_atom_mol2) 1 3 0
                3 [chloride_line] ion_phase_state
      = main_loop PyFloat.py_float_text (load_atom_names_from_mol2 two_atom_mol2) 1 3 0
                  4 [] st'
      /\ fout st'
         = fout ion_phase_state
           ++ [Atom (mk_atom 3 "Cl-" "Cl-" 2 ("9.000", "9.000", "9.000")); TerLine].
Proof.
  split; [|split].
  - apply (proj1 (ion_phase_record PyFloat.py_float_text
                    (load_atom_names_from_mol2 two_atom_mol2) 1 3 0
                    3 blank_sodium_line [] ion_phase_state eq_refl)).
    vm_compute. reflexivity.
  - apply (proj1 (proj2 (ion_phase_record PyFloat.py_float_text
                           (load_atom_names_from_mol2 two_atom_mol2) 1 3 0
                           3 sodium_line [] ion_phase_state eq_refl))
             ("4.000", "4.000", "4.000")).
    + vm_compute. reflexivity.
    + vm_compute. discriminate.
  - destruct (proj2 (proj2 (ion_phase_record PyFloat.py_float_text
                              (load_atom_names_from_mol2 two_atom_mol2) 1 3 0
                              3 chloride_line [] ion_phase_state eq_refl))
                ("9.000", "9.000", "9.000"))
      as (st' & H1 & H2 & _).
    + vm_compute. reflexivity.
    + vm_compute. reflexivity.
    + exists st'. split; [exact H1 | exact H2].
Defined.

(** The sample state of the ion phase is the one the loop reaches. *)
Lemma ion_phase_state_reached :
  main_loop PyFloat.py_float_text (load_atom_names_from_mol2 two_atom_mol2) 1 3 0 1
            (firstn 2 (atom_lines_of blank_ion_pdb)) (initial_state [])
  = Completed ion_phase_state [].
Proof. vm_compute. reflexivity. Qed.

(** C6: the code at the failing input.  With the manual counts 0 units,
    1 ion, 0 waters in force (the stream is shorter than the template, so the
    detector returns (0,0,0)), the only record, a chloride, is checked against
    the first atom of the template and the run stops with the oligomer
    message: the unit phase is entered whatever the unit count is. *)
Lemma unit_phase_entered_with_zero_units :
  fallback_counts (mk_manual 0 1 0) (0, 0, 0) = (0, 1, 0)
  /\ process_pdb PyFloat.py_float_text 1 (mk_manual 0 1 0) ion_only_pdb two_atom_mol2
     = Some (Aborted (OligomerMismatch 1 "C1" "C" "Cl") (initial_state [])).
Proof. split; vm_compute; reflexivity. Qed.

(** The loop starts in the oligomer phase for all counts, and with a unit
    count of zero a unit that closes does not leave it. *)
Lemma initial_phase_is_oligomer {coord : Type} (header_lines : list string) :
  current_mol_type (@initial_state coord header_lines) = oligomer.
Proof. reflexivity. Qed.

Lemma zero_units_never_leave_oligomer
      {coord : Type} (oligomer_info : list (string * string)) (num_ions num_waters : nat)
      (line_num : nat) (pdb_element : string) (p : coord * coord * coord)
      (st st' : state coord) :
  step_oligomer oligomer_info 0 num_ions num_waters line_num pdb_element p st = inr st' ->
  current_mol_type st' = oligomer.
Proof.
  unfold step_oligomer.
  destruct (nth_error _ _) as [[tn te]|]; [|discriminate].
  destruct (negb _); [discriminate|].
  destruct (_ =? atoms_per_oligomer _).
  - rewrite Nat.add_1_r. cbn [Nat.eqb]. intros [= <-]. reflexivity.
  - intros [= <-]. reflexivity.
Qed.

(** * What the detector's counts mean *)

Lemma forallb_false_exists {A : Type} (f : A -> bool) (l : list A) :
  forallb f l = false -> exists x, In x l /\ f x = false.
Proof.
  induction l as [|x l IH]; simpl; [discriminate|].
  destruct (f x) eqn:Hx.
  - intros H. destruct (IH H) as (y & Hy & Hfy). eauto.
  - intros _. eauto.
Qed.

(** The test of the water scan on one position is equality with the
    pattern. *)
Lemma water_test_true (j : nat) (elem : string) :
  j < 3 ->
  (let target := nth j water_pattern "" in
   if (target =? "H")%string && (elem =? "H")%string then true
   else if (target =? "O")%string && (elem =? "O")%string then true
   else false) = true
  <-> elem = nth j water_pattern "".
Proof.
  intros Hj.
  destruct j as [|[|[|j]]]; [| | |lia]; cbn [nth water_pattern];
    cbn [String.eqb Ascii.eqb Bool.eqb andb];
    (destruct (String.eqb_spec elem "H"); destruct (String.eqb_spec elem "O");
     subst; split; intros H; try reflexivity; try discriminate; try congruence).
Qed.

Section DetectorCounts.

Variable atom_lines : list string.
Variable atoms_per_olig : nat.

Lemma scan_oligomers_windows (pattern_names : list string) (fuel : nat) :
  forall current_index num_olig r,
    scan_oligomers fuel atom_lines pattern_names atoms_per_olig
                   current_index num_olig = Some r ->
    exists k,
      snd r = num_olig + k
      /\ fst r = current_index + k * atoms_per_olig
      /\ (forall q, q < k ->
                    oligomer_window_matches atom_lines pattern_names atoms_per_olig
                                            (current_index + q * atoms_per_olig) = true)
      /\ (fst r + atoms_per_olig <= List.length atom_lines ->
          oligomer_window_matches atom_lines pattern_names atoms_per_olig (fst r)
          = false).
Proof.
  induction fuel as [|fuel IH]; intros ci n r H; simpl in H; [discriminate|].
  destruct (Nat.leb_spec (ci + atoms_per_olig) (List.length atom_lines)) as [Hle|Hgt].
  - destruct (oligomer_window_matches _ _ _ ci) eqn:Hw.
    + apply IH in H. destruct H as (k & Hs & Hf & Hall & Hstop).
      exists (S k). repeat split; [lia | simpl; lia | | exact Hstop].
      intros q Hq. destruct q as [|q]; simpl.
      * rewrite Nat.add_0_r. exact Hw.
      * replace (ci + (atoms_per_olig + q * atoms_per_olig))
          with (ci + atoms_per_olig + q * atoms_per_olig) by lia.
        apply Hall. lia.
    + injection H as <-. exists 0. simpl. rewrite Nat.add_0_r.
      repeat split; auto; lia.
  - injection H as <-. exists 0. simpl. rewrite Nat.add_0_r.
    repeat split; auto; lia.
Qed.

Lemma scan_ions_records (fuel : nat) :
  forall ion_scan_index num_ion r,
    scan_ions fuel atom_lines ion_scan_index num_ion = Some r ->
    exists k,
      snd r = num_ion + k
      /\ fst r = ion_scan_index + k
      /\ (forall q, q < k -> is_ion_line (nth (ion_scan_index + q) atom_lines "") = true)
      /\ (fst r < List.length atom_lines ->
          is_ion_line (nth (fst r) atom_lines "") = false).
Proof.
  induction fuel as [|fuel IH]; intros i n r H; simpl in H; [discriminate|].
  destruct (Nat.ltb_spec i (List.length atom_lines)) as [Hlt|Hge].
  - destruct (is_ion_line (nth i atom_lines "")) eqn:Hion.
    + apply IH in H. destruct H as (k & Hs & Hf & Hall & Hstop).
      exists (S k). repeat split; [lia | lia | | exact Hstop].
      intros q Hq. destruct q as [|q].
      * rewrite Nat.add_0_r. exact Hion.
      * replace (i + S q) with (i + 1 + q) by lia. apply Hall. lia.
    + assert (r = (i, n)) as -> by (destruct (is_water_line _); congruence).
      exists 0. simpl. rewrite Nat.add_0_r. repeat split; auto; lia.
  - injection H as <-. exists 0. simpl. rewrite Nat.add_0_r.
    repeat split; auto; lia.
Qed.

Lemma scan_waters_windows (fuel : nat) :
  forall k num_wat r,
    scan_waters fuel atom_lines k num_wat = Some r ->
    exists m,
      snd r = num_wat + m
      /\ fst r = k + 3 * m
      /\ (forall q, q < m -> water_window_matches atom_lines (k + 3 * q) = true)
      /\ (fst r + 3 <= List.length atom_lines ->
          water_window_matches atom_lines (fst r) = false).
Proof.
  induction fuel as [|fuel IH]; intros k n r H; simpl in H; [discriminate|].
  unfold atoms_per_wat in H.
  destruct (Nat.leb_spec (k + 3) (List.length atom_lines)) as [Hle|Hgt].
  - destruct (water_window_matches atom_lines k) eqn:Hw.
    + apply IH in H. destruct H as (m & Hs & Hf & Hall & Hstop).
      exists (S m). repeat split; [lia | lia | | exact Hstop].
      intros q Hq. destruct q as [|q].
      * rewrite Nat.mul_0_r, Nat.add_0_r. exact Hw.
      * replace (k + 3 * S q) with (k + 3 + 3 * q) by lia. apply Hall. lia.
    + injection H as <-. exists 0. rewrite Nat.mul_0_r, !Nat.add_0_r. simpl.
      repeat split; auto; intros; lia.
  - injection H as <-. exists 0. rewrite Nat.mul_0_r, !Nat.add_0_r. simpl.
    repeat split; auto; intros; lia.
Qed.

(** The three scans behind a result of the detector, with the cursors
    between them. *)
Lemma auto_detect_counts_scans (fuel num_olig num_ion num_wat : nat) :
  atoms_per_olig <= List.length atom_lines ->
  auto_detect_counts fuel atom_lines atoms_per_olig = Some (num_olig, num_ion, num_wat) ->
  exists k,
    scan_oligomers fuel atom_lines (map name_field (firstn atoms_per_olig atom_lines))
                   atoms_per_olig 0 0 = Some (num_olig * atoms_per_olig, num_olig)
    /\ scan_ions fuel atom_lines (num_olig * atoms_per_olig) 0
       = Some (num_olig * atoms_per_olig + num_ion, num_ion)
    /\ scan_waters fuel atom_lines (num_olig * atoms_per_olig + num_ion) 0
       = Some (k, num_wat).
Proof.
  intros Hlen. unfold auto_detect_counts.
  destruct (Nat.ltb_spec (List.length atom_lines) atoms_per_olig); [lia|].
  destruct (scan_oligomers _ _ _ _ _ _) as [[ci no]|] eqn:E1; [|discriminate].
  destruct (scan_ions _ _ _ _) as [[ii ni]|] eqn:E2; [|discriminate].
  destruct (scan_waters _ _ _ _) as [[k nw]|] eqn:E3; [|discriminate].
  intros [= <- <- <-].
  destruct (scan_oligomers_result _ _ _ _ _ _ _ E1) as (a & Ha1 & Ha2 & _).
  destruct (scan_ions_result _ _ _ _ _ E2) as (b & Hb1 & Hb2 & _).
  simpl in Ha1, Ha2, Hb1, Hb2. subst a b ci ii.
  exists k. auto.
Qed.

End DetectorCounts.

(** X1.  Every unit the detector counts repeats, name by name, the names of
    the first [atoms_per_olig] records; and if the records after the last
    counted unit still hold a full window, that window differs from the first
    in at least one name. *)
Theorem detected_units_repeat_first_window
        (atom_lines : list string) (atoms_per_olig fuel num_olig num_ion num_wat : nat) :
  auto_detect_counts fuel atom_lines atoms_per_olig = Some (num_olig, num_ion, num_wat) ->
  (forall q j, q < num_olig -> j < atoms_per_olig ->
               name_field (nth (q * atoms_per_olig + j) atom_lines "")
               = name_field (nth j atom_lines ""))
  /\ ((num_olig + 1) * atoms_per_olig <= List.length atom_lines ->
      exists j, j < atoms_per_olig
                /\ name_field (nth (num_olig * atoms_per_olig + j) atom_lines "")
                   <> name_field (nth j atom_lines "")).
Proof.
  intros H.
  destruct (Nat.lt_ge_cases (List.length atom_lines) atoms_per_olig) as [Hshort|Hlen].
  - rewrite auto_detect_counts_short in H by exact Hshort.
    injection H as <- <- <-. split; [intros; lia | intros; lia].
  - destruct (auto_detect_counts_scans _ _ _ _ _ _ Hlen H) as (k & E1 & _ & _).
    destruct (scan_oligomers_windows _ _ _ _ _ _ _ E1) as (a & Ha1 & Ha2 & Hall & Hstop).
    simpl in Ha1, Ha2, Hall, Hstop. subst a.
    assert (Hpat : forall j, j < atoms_per_olig ->
                             nth j (map name_field (firstn atoms_per_olig atom_lines)) ""
                             = name_field (nth j atom_lines "")).
    { intros j Hj. change "" with (name_field "") at 1.
      rewrite map_nth, nth_firstn.
      destruct (Nat.ltb_spec j atoms_per_olig); [reflexivity | lia]. }
    split.
    + intros q j Hq Hj. specialize (Hall q Hq).
      unfold oligomer_window_matches, for_all_range in Hall.
      rewrite forallb_forall in Hall.
      specialize (Hall j (proj2 (in_seq _ _ _) (conj (Nat.le_0_l j) Hj))).
      apply String.eqb_eq in Hall. rewrite Hall. apply Hpat. exact Hj.
    + intros Hfit.
      assert (Hno : oligomer_window_matches
                      atom_lines (map name_field (firstn atoms_per_olig atom_lines))
                      atoms_per_olig (num_olig * atoms_per_olig) = false)
        by (apply Hstop; lia).
      unfold oligomer_window_matches, for_all_range in Hno.
      apply forallb_false_exists in Hno. destruct Hno as (j & Hj & Hne).
      apply in_seq in Hj. exists j. split; [lia|].
      apply String.eqb_neq in Hne. rewrite Hpat in Hne by lia. exact Hne.
Qed.

Lemma detected_units_repeat_first_window_witness :
  (forall q j, q < 2 -> j < 2 ->
               name_field (nth (q * 2 + j) (atom_lines_of demo_pdb) "")
               = name_field (nth j (atom_lines_of demo_pdb) ""))
  /\ ((2 + 1) * 2 <= List.length (atom_lines_of demo_pdb) ->
      exists j, j < 2
                /\ name_field (nth (2 * 2 + j) (atom_lines_of demo_pdb) "")
                   <> name_field (nth j (atom_lines_of demo_pdb) "")).
Proof.
  apply (detected_units_repeat_first_window (atom_lines_of demo_pdb) 2 10 2 1 1).
  vm_compute. reflexivity.
Defined.

(** X2.  When the stream is at least as long as the template (so the
    scans run), the records the detector counts as ions, those right after
    the units, all carry an ion name as residue name or atom name; the record
    after them, if there is one, carries none. *)
Theorem detected_ions_are_ion_lines
        (atom_lines : list string) (atoms_per_olig fuel num_olig num_ion num_wat : nat) :
  atoms_per_olig <= List.length atom_lines ->
  auto_detect_counts fuel atom_lines atoms_per_olig = Some (num_olig, num_ion, num_wat) ->
  (forall q, q < num_ion ->
             is_ion_line (nth (num_olig * atoms_per_olig + q) atom_lines "") = true)
  /\ (num_olig * atoms_per_olig + num_ion < List.length atom_lines ->
      is_ion_line (nth (num_olig * atoms_per_olig + num_ion) atom_lines "") = false).
Proof.
  intros Hlen H.
  destruct (auto_detect_counts_scans _ _ _ _ _ _ Hlen H) as (k & _ & E2 & _).
  destruct (scan_ions_records _ _ _ _ _ E2) as (a & Ha1 & Ha2 & Hall & Hstop).
  simpl in Ha1, Ha2, Hall, Hstop. subst a. split; [exact Hall | exact Hstop].
Qed.

Lemma detected_ions_are_ion_lines_witness :
  (forall q, q < 1 -> is_ion_line (nth (2 * 2 + q) (atom_lines_of demo_pdb) "") = true)
  /\ (2 * 2 + 1 < List.length (atom_lines_of demo_pdb) ->
      is_ion_line (nth (2 * 2 + 1) (atom_lines_of demo_pdb) "") = false).
Proof.
  apply (detected_ions_are_ion_lines (atom_lines_of demo_pdb) 2 10 2 1 1).
  - vm_compute. lia.
  - vm_compute. reflexivity.
Defined.

(** The value of the water scan's inner loop. *)
Lemma water_window_matches_true (atom_lines : list string) (k : nat) :
  water_window_matches atom_lines k = true ->
  forall j, j < 3 -> get_pdb_element (nth (k + j) atom_lines "") = nth j water_pattern "".
Proof.
  unfold water_window_matches, for_all_range, atoms_per_wat. intros H j Hj.
  rewrite forallb_forall in H.
  specialize (H j (proj2 (in_seq _ _ _) (conj (Nat.le_0_l j) Hj))).
  apply (water_test_true j _ Hj). exact H.
Qed.

Lemma water_window_matches_false (atom_lines : list string) (k : nat) :
  water_window_matches atom_lines k = false ->
  exists j, j < 3 /\ get_pdb_element (nth (k + j) atom_lines "") <> nth j water_pattern "".
Proof.
  unfold water_window_matches, for_all_range, atoms_per_wat. intros H.
  apply forallb_false_exists in H. destruct H as (j & Hj & Hne).
  apply in_seq in Hj. exists j. split; [lia|].
  intros Heq. apply (water_test_true j _ (proj2 Hj)) in Heq.
  simpl in Hne, Heq. congruence.
Qed.

(** X3.  When the stream is at least as long as the template, the records
    the detector counts as waters, those right after the ions, classify as
    [O], [H], [H] group by group; and if the records after the last counted
    water still hold three records, these do not classify as [O], [H], [H]. *)
Theorem detected_waters_are_OHH
        (atom_lines : list string) (atoms_per_olig fuel num_olig num_ion num_wat : nat) :
  atoms_per_olig <= List.length atom_lines ->
  auto_detect_counts fuel atom_lines atoms_per_olig = Some (num_olig, num_ion, num_wat) ->
  let first_water := num_olig * atoms_per_olig + num_ion in
  (forall q j, q < num_wat -> j < 3 ->
               get_pdb_element (nth (first_water + 3 * q + j) atom_lines "")
               = nth j water_pattern "")
  /\ (first_water + 3 * (num_wat + 1) <= List.length atom_lines ->
      exists j, j < 3
                /\ get_pdb_element (nth (first_water + 3 * num_wat + j) atom_lines "")
                   <> nth j water_pattern "").
Proof.
  intros Hlen H first_water.
  destruct (auto_detect_counts_scans _ _ _ _ _ _ Hlen H) as (k & _ & _ & E3).
  fold first_water in E3.
  destruct (scan_waters_windows _ _ _ _ _ E3) as (m & Hm1 & Hm2 & Hall & Hstop).
  cbn [fst snd] in Hm1, Hm2, Hall, Hstop. rewrite Nat.add_0_l in Hm1. subst m k.
  split.
  - intros q j Hq Hj. apply water_window_matches_true; auto.
  - intros Hfit. apply water_window_matches_false. apply Hstop. lia.
Qed.

Lemma detected_waters_are_OHH_witness :
  (forall q j, q < 1 -> j < 3 ->
               get_pdb_element (nth (2 * 2 + 1 + 3 * q + j) (atom_lines_of demo_pdb) "")
               = nth j water_pattern "")
  /\ (2 * 2 + 1 + 3 * (1 + 1) <= List.length (atom_lines_of demo_pdb) ->
      exists j, j < 3
                /\ get_pdb_element (nth (2 * 2 + 1 + 3 * 1 + j) (atom_lines_of demo_pdb) "")
                   <> nth j water_pattern "").
Proof.
  apply (detected_waters_are_OHH (atom_lines_of demo_pdb) 2 10 2 1 1).
  - vm_compute. lia.
  - vm_compute. reflexivity.
Defined.

(** * The element classifier and the template loader *)

Lemma upper_char_idem (c : ascii) : upper_char (upper_char c) = upper_char c.
Proof. destruct c as [[] [] [] [] [] [] [] []]; reflexivity. Qed.

Lemma lower_char_idem (c : ascii) : lower_char (lower_char c) = lower_char c.
Proof. destruct c as [[] [] [] [] [] [] [] []]; reflexivity. Qed.

Lemma upper_char_alpha (c : ascii) : is_alpha c = true -> is_alpha (upper_char c) = true.
Proof. destruct c as [[] [] [] [] [] [] [] []]; intros H; try reflexivity; discriminate. Qed.

Lemma lower_char_alpha (c : ascii) : is_alpha c = true -> is_alpha (lower_char c) = true.
Proof. destruct c as [[] [] [] [] [] [] [] []]; intros H; try reflexivity; discriminate. Qed.

Lemma lower_idem (s : string) : lower (lower s) = lower s.
Proof.
  unfold lower. induction s as [|c s IH]; simpl; [reflexivity|].
  rewrite lower_char_idem, IH. reflexivity.
Qed.

Lemma capitalize_idem (s : string) : capitalize (capitalize s) = capitalize s.
Proof.
  destruct s as [|c s]; simpl; [reflexivity|].
  rewrite upper_char_idem, lower_idem. reflexivity.
Qed.

Lemma all_chars_filter (p : ascii -> bool) (s : string) :
  all_chars p (filter_chars p s) = true.
Proof.
  induction s as [|c s IH]; simpl; [reflexivity|].
  destruct (p c) eqn:Hc; simpl; [rewrite Hc|]; exact IH.
Qed.

Lemma all_chars_map (p : ascii -> bool) (f : ascii -> ascii) (s : string) :
  (forall c, p c = true -> p (f c) = true) ->
  all_chars p s = true -> all_chars p (map_chars f s) = true.
Proof.
  intros Hf. induction s as [|c s IH]; simpl; [reflexivity|].
  intros H. apply andb_prop in H. destruct H as [Hc Hs].
  rewrite (Hf c Hc), (IH Hs). reflexivity.
Qed.

Lemma all_chars_capitalize (s : string) :
  all_chars is_alpha s = true -> all_chars is_alpha (capitalize s) = true.
Proof.
  destruct s as [|c s]; simpl; [reflexivity|].
  intros H. apply andb_prop in H. destruct H as [Hc Hs].
  rewrite (upper_char_alpha c Hc). simpl.
  apply all_chars_map; [exact lower_char_alpha | exact Hs].
Qed.

(** X4.  The element the classifier returns is always in capitalized form
    (first character not a lower-case letter, no upper-case letter after it):
    capitalizing it again changes nothing.  This holds on both paths, the
    element column and the atom name. *)
Theorem get_pdb_element_capitalized (line : string) :
  capitalize (get_pdb_element line) = get_pdb_element line.
Proof.
  unfold get_pdb_element.
  destruct (_ && _); [apply capitalize_idem|].
  destruct (startswith "CL" _); [reflexivity|].
  destruct (startswith "BR" _); [reflexivity|].
  destruct (startswith "H" _); [reflexivity|].
  apply capitalize_idem.
Qed.

(** X5.  When the line has no usable element column (it is shorter than 78
    characters, or columns 76-77 are blank), the element is made of letters
    only: digits, signs and blanks of the atom name never reach it. *)
Theorem get_pdb_element_fallback_letters (line : string) :
  String.length line < 78 \/ strip (slice 76 78 line) = "" ->
  all_chars is_alpha (get_pdb_element line) = true.
Proof.
  intros H. unfold get_pdb_element.
  assert (Hcol : (78 <=? String.length line)
                 && negb (strip (slice 76 78 line) =? "")%string = false).
  { destruct H as [H|H].
    - destruct (Nat.leb_spec 78 (String.length line)); [lia | reflexivity].
    - rewrite H. apply andb_false_r. }
  rewrite Hcol.
  destruct (startswith "CL" _); [reflexivity|].
  destruct (startswith "BR" _); [reflexivity|].
  destruct (startswith "H" _); [reflexivity|].
  apply all_chars_capitalize. apply all_chars_filter.
Qed.

Lemma get_pdb_element_fallback_letters_witness :
  all_chars is_alpha (get_pdb_element (nth 4 (atom_lines_of demo_pdb) "")) = true
  /\ get_pdb_element (nth 4 (atom_lines_of demo_pdb) "") = "Cl".
Proof.
  split.
  - apply get_pdb_element_fallback_letters. left. vm_compute. lia.
  - reflexivity.
Defined.

(** The fields of [split()] are not empty and hold no blank. *)
Lemma all_chars_of_list (p : ascii -> bool) (l : list ascii) :
  all_chars p (string_of_list_ascii l) = forallb p l.
Proof. induction l as [|c l IH]; simpl; [reflexivity | rewrite IH; reflexivity]. Qed.

Lemma forallb_rev {A : Type} (p : A -> bool) (l : list A) :
  forallb p l = true -> forallb p (rev l) = true.
Proof.
  rewrite !forallb_forall. intros H x Hx. apply H. apply in_rev. exact Hx.
Qed.

Lemma split_from_fields (s : string) : forall cur,
  forallb not_space cur = true -> Forall field_ok (split_from cur s).
Proof.
  induction s as [|c s IH]; intros cur Hcur.
  - simpl. destruct cur as [|a cur]; constructor; [|constructor].
    split.
    + intros H. apply (f_equal list_ascii_of_string) in H.
      rewrite list_ascii_of_string_of_list_ascii in H.
      apply (f_equal (@List.length ascii)) in H.
      rewrite length_rev in H. discriminate.
    + rewrite all_chars_of_list. apply forallb_rev. exact Hcur.
  - simpl. destruct (is_space c) eqn:Hc.
    + apply Forall_app. split; [|apply IH; reflexivity].
      destruct cur as [|a cur]; constructor; [|constructor].
      split.
      * intros H. apply (f_equal list_ascii_of_string) in H.
        rewrite list_ascii_of_string_of_list_ascii in H.
        apply (f_equal (@List.length ascii)) in H.
        rewrite length_rev in H. discriminate.
      * rewrite all_chars_of_list. apply forallb_rev. exact Hcur.
    + apply IH. simpl. unfold not_space at 1. rewrite Hc. exact Hcur.
Qed.

Lemma split_fields (s : string) : Forall field_ok (split s).
Proof. apply split_from_fields. reflexivity. Qed.

Lemma lower_not_empty (t : string) : t <> "" -> lower t <> "".
Proof. destruct t; [contradiction | discriminate]. Qed.

(** The element read off an atom type that is not empty: one or two
    characters, in capitalized form. *)
Lemma element_guess_symbol (atom_type : string) :
  atom_type <> "" ->
  (String.length (element_guess atom_type) = 1
   \/ String.length (element_guess atom_type) = 2)
  /\ capitalize (element_guess atom_type) = element_guess atom_type.
Proof.
  intros Hne. unfold element_guess.
  destruct (startswith "cl" _); [split; [right|]; reflexivity|].
  destruct (startswith "br" _); [split; [right|]; reflexivity|].
  destruct (startswith "na" _); [split; [right|]; reflexivity|].
  destruct (startswith "mg" _); [split; [right|]; reflexivity|].
  destruct (startswith "fe" _); [split; [right|]; reflexivity|].
  destruct atom_type as [|c t]; [contradiction|].
  split; [left; reflexivity|]. simpl. rewrite upper_char_idem. reflexivity.
Qed.

Lemma atom_of_row_ok (line : string) :
  is_atom_row line = true -> entry_ok (atom_of_row line).
Proof.
  unfold is_atom_row, atom_of_row. intros H. apply Nat.leb_le in H.
  pose proof (split_fields (strip line)) as Hf. rewrite Forall_forall in Hf.
  split; [|apply element_guess_symbol; apply lower_not_empty].
  - apply Hf. apply nth_In. lia.
  - apply Hf. apply nth_In. lia.
Qed.

(** One round of the loader's loop, in terms of the markers and rows. *)
Lemma load_atom_names_loop_cons (line : string) (lines : list string)
      (reading_atoms : bool) (atom_info : list (string * string)) :
  load_atom_names_loop (line :: lines) reading_atoms atom_info
  = if atom_marker line then load_atom_names_loop lines true atom_info
    else if bond_marker line then atom_info
    else if reading_atoms && is_atom_row line
         then load_atom_names_loop lines reading_atoms (atom_info ++ [atom_of_row line])
         else load_atom_names_loop lines reading_atoms atom_info.
Proof.
  cbn [load_atom_names_loop]. unfold atom_marker, bond_marker, is_atom_row, atom_of_row.
  destruct (startswith "@<TRIPOS>ATOM" line); [reflexivity|].
  destruct (startswith "@<TRIPOS>BOND" line); [reflexivity|].
  destruct reading_atoms; [|reflexivity].
  destruct (6 <=? List.length (split (strip line))); reflexivity.
Qed.

Lemma load_atom_names_loop_ok (lines : list string) :
  forall reading_atoms atom_info,
    Forall entry_ok atom_info ->
    Forall entry_ok (load_atom_names_loop lines reading_atoms atom_info).
Proof.
  induction lines as [|line lines IH]; intros reading acc Hacc; [exact Hacc|].
  rewrite load_atom_names_loop_cons.
  destruct (atom_marker line); [apply IH; exact Hacc|].
  destruct (bond_marker line); [exact Hacc|].
  destruct (reading && is_atom_row line) eqn:Hrow; [|apply IH; exact Hacc].
  apply andb_prop in Hrow. destruct Hrow as [_ H6].
  apply IH. apply Forall_app. split; [exact Hacc|].
  constructor; [|constructor]. apply (atom_of_row_ok line). exact H6.
Qed.

(** X6.  Every pair the template loader returns has a name that is not empty
    and holds no blank, and an element of one or two characters in
    capitalized form, the form the classifier returns; in particular
    [atom_type[0]] is always defined. *)
Theorem template_entries_well_formed (mol2_file : list string) :
  Forall (fun ne => (fst ne <> "" /\ all_chars not_space (fst ne) = true)
                    /\ (String.length (snd ne) = 1 \/ String.length (snd ne) = 2)
                    /\ capitalize (snd ne) = snd ne)
         (load_atom_names_from_mol2 mol2_file).
Proof. apply load_atom_names_loop_ok. constructor. Qed.

Lemma markers_exclusive (line : string) :
  bond_marker line = true -> atom_marker line = false.
Proof.
  unfold bond_marker, atom_marker, startswith. intros Hb.
  destruct (prefix "@<TRIPOS>ATOM" line) eqn:Ha; [|reflexivity].
  apply prefix_correct in Ha, Hb. simpl String.length in Ha, Hb.
  rewrite Ha in Hb. discriminate.
Qed.

(** Before the atom marker nothing is recorded. *)
Lemma load_atom_names_loop_skip (pre : list string) :
  forall tail atom_info,
    Forall (fun l => atom_marker l = false /\ bond_marker l = false) pre ->
    load_atom_names_loop (pre ++ tail) false atom_info
    = load_atom_names_loop tail false atom_info.
Proof.
  induction pre as [|line pre IH]; intros tail acc H; [reflexivity|].
  inversion H as [|? ? [Ha Hb] Hpre]; subst.
  rewrite <- app_comm_cons, load_atom_names_loop_cons, Ha, Hb. simpl.
  apply IH. exact Hpre.
Qed.

(** Inside the atom block every row of six fields or more gives one pair, in
    order; a line that repeats the atom marker is passed over. *)
Lemma load_atom_names_loop_rows (body : list string) :
  forall tail atom_info,
    Forall (fun l => bond_marker l = false) body ->
    load_atom_names_loop (body ++ tail) true atom_info
    = load_atom_names_loop
        tail true
        (atom_info
         ++ map atom_of_row
                (filter (fun l => negb (atom_marker l) && is_atom_row l) body)).
Proof.
  induction body as [|line body IH]; intros tail acc H.
  - simpl. rewrite app_nil_r. reflexivity.
  - inversion H as [|? ? Hb Hbody]; subst.
    rewrite <- app_comm_cons, load_atom_names_loop_cons, Hb.
    cbn [filter]. destruct (atom_marker line); cbn [negb andb].
    + apply IH. exact Hbody.
    + destruct (is_atom_row line); cbn [map].
      * rewrite (IH _ _ Hbody), <- app_assoc. reflexivity.
      * apply IH. exact Hbody.
Qed.

(** X7.  For a template file made of lines without marker, a line starting
    with [@<TRIPOS>ATOM], an atom block without a line starting with
    [@<TRIPOS>BOND], and then either nothing or a line starting with
    [@<TRIPOS>BOND] and anything after it: the loader returns one pair for
    each line of the block that has at least six fields (lines repeating the
    atom marker apart), in the order of the file, and nothing else. *)
Theorem template_is_rows_of_atom_block
        (pre : list string) (marker : string) (body rest : list string) :
  Forall (fun l => atom_marker l = false /\ bond_marker l = false) pre ->
  atom_marker marker = true ->
  Forall (fun l => bond_marker l = false) body ->
  (rest = [] \/ exists b post, rest = b :: post /\ bond_marker b = true) ->
  load_atom_names_from_mol2 (pre ++ marker :: body ++ rest)
  = map atom_of_row (filter (fun l => negb (atom_marker l) && is_atom_row l) body).
Proof.
  intros Hpre Hm Hbody Hrest. unfold load_atom_names_from_mol2.
  rewrite (load_atom_names_loop_skip pre _ _ Hpre).
  rewrite load_atom_names_loop_cons, Hm.
  rewrite (load_atom_names_loop_rows body _ _ Hbody), app_nil_l.
  destruct Hrest as [->|(b & post & -> & Hb)]; [reflexivity|].
  rewrite load_atom_names_loop_cons, (markers_exclusive b Hb), Hb. reflexivity.
Qed.

Lemma template_is_rows_of_atom_block_witness :
  load_atom_names_from_mol2 two_atom_mol2
  = map atom_of_row
        (filter (fun l => negb (atom_marker l) && is_atom_row l)
                (firstn 2 (skipn 3 two_atom_mol2))).
Proof.
  change two_atom_mol2
    with (firstn 2 two_atom_mol2
          ++ nth 2 two_atom_mol2 ""
          :: firstn 2 (skipn 3 two_atom_mol2) ++ skipn 5 two_atom_mol2) at 1.
  apply template_is_rows_of_atom_block.
  - repeat constructor.
  - reflexivity.
  - repeat constructor.
  - right. eexists. eexists. split; reflexivity.
Defined.

(** X8.  A template file in which no line starting with [@<TRIPOS>ATOM]
    comes before the first line starting with [@<TRIPOS>BOND] (or which has
    neither) yields the empty template, and [process_pdb] on an empty
    template never gets past the detector, whatever the input. *)
Theorem template_without_atom_block_hangs
        {coord : Type} (py_float : string -> option coord)
        (pre rest : list string) :
  Forall (fun l => atom_marker l = false /\ bond_marker l = false) pre ->
  (rest = [] \/ exists b post, rest = b :: post /\ bond_marker b = true) ->
  load_atom_names_from_mol2 (pre ++ rest) = []
  /\ forall fuel cfg input_pdb,
      process_pdb py_float fuel cfg input_pdb (pre ++ rest) = None.
Proof.
  intros Hpre Hrest.
  assert (Hempty : load_atom_names_from_mol2 (pre ++ rest) = []).
  { unfold load_atom_names_from_mol2.
    rewrite (load_atom_names_loop_skip pre _ _ Hpre).
    destruct Hrest as [->|(b & post & -> & Hb)]; [reflexivity|].
    rewrite load_atom_names_loop_cons, (markers_exclusive b Hb), Hb. reflexivity. }
  split; [exact Hempty|].
  intros fuel cfg input_pdb. apply process_pdb_empty_template. exact Hempty.
Qed.

Lemma template_without_atom_block_hangs_witness :
  load_atom_names_from_mol2 (firstn 2 two_atom_mol2 ++ skipn 5 two_atom_mol2) = []
  /\ forall fuel cfg input_pdb,
      process_pdb PyFloat.py_float_text fuel cfg input_pdb
                  (firstn 2 two_atom_mol2 ++ skipn 5 two_atom_mol2) = None.
Proof.
  apply template_without_atom_block_hangs.
  - repeat constructor.
  - right. eexists. eexists. split; reflexivity.
Defined.

(** * The pattern a run follows *)

Lemma copies_snoc {A : Type} (l : list A) (n : nat) :
  copies (n + 1) l = copies n l ++ l.
Proof.
  unfold copies. induction n as [|n IH]; simpl.
  - rewrite app_nil_r. reflexivity.
  - rewrite IH, app_assoc. reflexivity.
Qed.

Lemma repeat_snoc {A : Type} (x : A) (n : nat) :
  repeat x (n + 1) = repeat x n ++ [x].
Proof. induction n as [|n IH]; simpl; [reflexivity | rewrite IH; reflexivity]. Qed.

Lemma length_copies {A : Type} (l : list A) (n : nat) :
  List.length (copies n l) = n * List.length l.
Proof.
  unfold copies. induction n as [|n IH]; simpl; [reflexivity|].
  rewrite length_app, IH. reflexivity.
Qed.

Section LabelMachine.

Context {coord : Type}.
Variable py_float : string -> option coord.
Variable oligomer_info : list (string * string).
Variables num_oligomers num_ions num_waters : nat.

Local Abbreviation apo := (List.length oligomer_info).
Local Abbreviation Lab :=
  (@label_inv coord oligomer_info num_oligomers num_ions num_waters).
Local Abbreviation read :=
  (@labels_read coord oligomer_info num_oligomers num_ions num_waters).
Local Abbreviation units := (unit_labels oligomer_info).
Local Abbreviation run_step := (step py_float oligomer_info num_oligomers num_ions num_waters).
Local Abbreviation run_loop := (main_loop py_float oligomer_info num_oligomers num_ions num_waters).

Lemma atoms_of_app (l1 l2 : list (pdb_line coord)) :
  atoms_of (l1 ++ l2) = atoms_of l1 ++ atoms_of l2.
Proof. apply flat_map_app. Qed.

Lemma atoms_of_push (f b : list (pdb_line coord)) (a : atom_record coord) :
  atoms_of (f ++ b ++ [Atom a]) = atoms_of (f ++ b) ++ [a].
Proof. rewrite app_assoc, atoms_of_app. reflexivity. Qed.

Lemma atoms_of_close (f b : list (pdb_line coord)) (a : atom_record coord) :
  atoms_of ((f ++ b ++ [Atom a; TerLine]) ++ []) = atoms_of (f ++ b) ++ [a].
Proof. rewrite app_nil_r, app_assoc, atoms_of_app. reflexivity. Qed.

Lemma atoms_of_render (rs : list (list (atom_record coord))) :
  atoms_of (render rs) = concat rs.
Proof.
  induction rs as [|r rs IH]; [reflexivity|].
  unfold render in *. simpl. unfold render_residue at 1.
  rewrite !atoms_of_app, IH. simpl. rewrite app_nil_r. f_equal.
  induction r as [|a r IHr]; simpl; [reflexivity | rewrite IHr; reflexivity].
Qed.

Lemma atoms_of_headers (hs : list string) :
  atoms_of (map (@Header coord) hs) = [].
Proof. induction hs; simpl; auto. Qed.

Lemma initial_state_labels (header_lines : list string) :
  Lab [] (@initial_state coord header_lines).
Proof.
  constructor.
  - simpl. rewrite app_nil_r, atoms_of_headers. reflexivity.
  - reflexivity.
  - reflexivity.
  - unfold indices_in_range. simpl. split; lia.
Qed.

(** One more record, one more label. *)
Lemma label_inv_extend pre st st' line a lab :
  Lab pre st ->
  atoms_of (fout st' ++ current_residue_lines st')
  = atoms_of (fout st ++ current_residue_lines st) ++ [a] ->
  names_of a = fst lab ->
  get_pdb_element line = snd lab ->
  read st' = read st ++ [lab] ->
  residue_counter st'
  = residues_read num_oligomers num_ions num_waters st' ->
  indices_in_range oligomer_info num_oligomers num_ions num_waters st' ->
  Lab (pre ++ [line]) st'.
Proof.
  intros [Hn He _ _] Ha Hname Hel Hread Hres Hidx. constructor.
  - rewrite Ha, Hread, !map_app, Hn. simpl. rewrite Hname. reflexivity.
  - rewrite Hread, !map_app, He. simpl. rewrite Hel. reflexivity.
  - exact Hres.
  - exact Hidx.
Qed.

Lemma unit_label_at (j : nat) (target_name target_element : string) :
  nth_error oligomer_info j = Some (target_name, target_element) ->
  nth_error units j = Some (target_name, "MOL", target_element).
Proof. intros H. unfold unit_labels. rewrite nth_error_map, H. reflexivity. Qed.

Lemma labels_in_unit (m j : nat) (target_name target_element : string) :
  nth_error oligomer_info j = Some (target_name, target_element) ->
  copies m units ++ firstn (j + 1) units
  = (copies m units ++ firstn j units) ++ [(target_name, "MOL", target_element)].
Proof.
  intros H. rewrite Nat.add_1_r, (firstn_snoc _ _ _ (unit_label_at _ _ _ H)).
  apply app_assoc.
Qed.

Lemma labels_after_unit (m j : nat) (target_name target_element : string) :
  nth_error oligomer_info j = Some (target_name, target_element) ->
  j + 1 = apo ->
  copies (m + 1) units
  = (copies m units ++ firstn j units) ++ [(target_name, "MOL", target_element)].
Proof.
  intros H Hlast. rewrite <- (labels_in_unit m j _ _ H), copies_snoc. f_equal.
  symmetry. apply firstn_all2. unfold unit_labels. rewrite length_map. lia.
Qed.

Lemma step_oligomer_labels pre st line_num line p st' :
  Lab pre st ->
  current_mol_type st = oligomer ->
  step_oligomer oligomer_info num_oligomers num_ions num_waters
                line_num (get_pdb_element line) p st = inr st' ->
  Lab (pre ++ [line]) st'.
Proof.
  intros HL Hph. unfold step_oligomer, atoms_per_oligomer.
  pose proof (lab_indices _ _ _ _ _ _ HL) as Hidx.
  pose proof (lab_residues _ _ _ _ _ _ HL) as Hres.
  unfold indices_in_range in Hidx. unfold residues_read in Hres.
  rewrite Hph in Hidx, Hres. destruct Hidx as [HU Ha].
  destruct (nth_error oligomer_info (atom_in_mol_idx st)) as [[tn te]|] eqn:Hnth;
    [|discriminate].
  destruct (String.eqb_spec (get_pdb_element line) te) as [Hel|Hel]; [|discriminate].
  assert (Haim : atom_in_mol_idx st < apo) by (apply nth_error_Some; congruence).
  cbv [negb].
  destruct (Nat.eqb_spec (atom_in_mol_idx st + 1) apo) as [Hlast|Hmore].
  - destruct (Nat.eqb_spec (mol_idx st + 1) num_oligomers) as [Hm|Hm].
    + destruct (Nat.ltb_spec 0 num_ions) as [HI|HI];
        [|destruct (Nat.ltb_spec 0 num_waters) as [HW|HW]];
        intros [= <-];
        (eapply (label_inv_extend pre st _ line _ (tn, "MOL", te));
         [ exact HL | apply atoms_of_close | reflexivity | exact Hel
         | unfold labels_read; rewrite Hph;
           cbn [current_mol_type mol_idx atom_in_mol_idx]
         | unfold residues_read;
           cbn [current_mol_type mol_idx residue_counter]; lia
         | unfold indices_in_range;
           cbn [current_mol_type mol_idx atom_in_mol_idx current_residue_lines];
           repeat split; lia ]).
      * rewrite <- Hm, <- (labels_after_unit _ _ _ _ Hnth Hlast). apply app_nil_r.
      * assert (num_ions = 0) as -> by lia.
        rewrite <- Hm, <- (labels_after_unit _ _ _ _ Hnth Hlast).
        simpl. rewrite app_nil_r. reflexivity.
      * unfold expected_labels.
        assert (num_ions = 0) as -> by lia. assert (num_waters = 0) as -> by lia.
        rewrite <- Hm, <- (labels_after_unit _ _ _ _ Hnth Hlast).
        simpl. rewrite app_nil_r. reflexivity.
    + intros [= <-].
      eapply (label_inv_extend pre st _ line _ (tn, "MOL", te));
        [ exact HL | apply atoms_of_close | reflexivity | exact Hel
        | unfold labels_read; rewrite Hph;
          cbn [current_mol_type mol_idx atom_in_mol_idx]
        | unfold residues_read;
          cbn [current_mol_type mol_idx residue_counter]; lia
        | unfold indices_in_range;
          cbn [current_mol_type mol_idx atom_in_mol_idx current_residue_lines];
          repeat split; lia ].
      rewrite <- (labels_after_unit _ _ _ _ Hnth Hlast). apply app_nil_r.
  - intros [= <-].
    eapply (label_inv_extend pre st _ line _ (tn, "MOL", te));
      [ exact HL | apply atoms_of_push | reflexivity | exact Hel
      | unfold labels_read; rewrite Hph;
        cbn [current_mol_type mol_idx atom_in_mol_idx]
      | unfold residues_read;
        cbn [current_mol_type mol_idx residue_counter]; lia
      | unfold indices_in_range;
        cbn [current_mol_type mol_idx atom_in_mol_idx current_residue_lines];
        repeat split; lia ].
    apply (labels_in_unit _ _ _ _ Hnth).
Qed.

Lemma step_ion_labels pre st line_num line p st' :
  Lab pre st ->
  current_mol_type st = ion ->
  step_ion num_ions num_waters line_num (get_pdb_element line) p st = inr st' ->
  Lab (pre ++ [line]) st'.
Proof.
  intros HL Hph. unfold step_ion.
  pose proof (lab_indices _ _ _ _ _ _ HL) as Hidx.
  pose proof (lab_residues _ _ _ _ _ _ HL) as Hres.
  unfold indices_in_range in Hidx. unfold residues_read in Hres.
  rewrite Hph in Hidx, Hres. destruct Hidx as (HU & Hm & Hbuf).
  destruct (String.eqb_spec (get_pdb_element line) "Cl") as [Hel|Hel]; [|discriminate].
  cbv [negb].
  destruct (Nat.eqb_spec (mol_idx st + 1) num_ions) as [HI|HI];
    [destruct (Nat.ltb_spec 0 num_waters) as [HW|HW]|];
    intros [= <-];
    (eapply (label_inv_extend pre st _ line _ ion_label);
     [ exact HL
     | cbn [fout current_residue_lines];
       rewrite Hbuf, !app_nil_r, atoms_of_app; reflexivity
     | reflexivity | exact Hel
     | unfold labels_read; rewrite Hph;
       cbn [current_mol_type mol_idx atom_in_mol_idx]
     | unfold residues_read;
       cbn [current_mol_type mol_idx residue_counter]; lia
     | unfold indices_in_range;
       cbn [current_mol_type mol_idx atom_in_mol_idx current_residue_lines];
       repeat split; try lia; try assumption ]).
  - rewrite <- HI, repeat_snoc. simpl. rewrite app_nil_r, <- !app_assoc. reflexivity.
  - unfold expected_labels. assert (num_waters = 0) as -> by lia.
    rewrite <- HI, repeat_snoc. simpl. rewrite app_nil_r, <- !app_assoc. reflexivity.
  - rewrite repeat_snoc, <- !app_assoc. reflexivity.
Qed.

Lemma step_water_labels pre st line_num line p st' :
  Lab pre st ->
  current_mol_type st = water ->
  step_water num_waters line_num (get_pdb_element line) p st = inr st' ->
  Lab (pre ++ [line]) st'.
Proof.
  intros HL Hph. unfold step_water.
  pose proof (lab_indices _ _ _ _ _ _ HL) as Hidx.
  pose proof (lab_residues _ _ _ _ _ _ HL) as Hres.
  unfold indices_in_range in Hidx. unfold residues_read in Hres.
  rewrite Hph in Hidx, Hres. destruct Hidx as (HU & Hm & Ha).
  destruct (atom_in_mol_idx st) as [|[|[|j]]] eqn:Hj; [| | |lia];
    cbn [nth_error water_atom_names water_elements];
    (match goal with
     | |- context [negb (get_pdb_element line =? ?te)%string] =>
         destruct (String.eqb_spec (get_pdb_element line) te) as [Hel|Hel];
         [|discriminate]
     end);
    cbv [negb]; cbn [Nat.add Nat.eqb].
  - intros [= <-].
    eapply (label_inv_extend pre st _ line _ ("O", "WAT", "O"));
      [ exact HL | apply atoms_of_push | reflexivity | exact Hel
      | unfold labels_read; rewrite Hph, Hj;
        cbn [current_mol_type mol_idx atom_in_mol_idx]
      | unfold residues_read;
        cbn [current_mol_type mol_idx residue_counter]; lia
      | unfold indices_in_range;
        cbn [current_mol_type mol_idx atom_in_mol_idx current_residue_lines];
        repeat split; lia ].
    cbn [firstn water_labels]. rewrite <- !app_assoc. reflexivity.
  - intros [= <-].
    eapply (label_inv_extend pre st _ line _ ("H1", "WAT", "H"));
      [ exact HL | apply atoms_of_push | reflexivity | exact Hel
      | unfold labels_read; rewrite Hph, Hj;
        cbn [current_mol_type mol_idx atom_in_mol_idx]
      | unfold residues_read;
        cbn [current_mol_type mol_idx residue_counter]; lia
      | unfold indices_in_range;
        cbn [current_mol_type mol_idx atom_in_mol_idx current_residue_lines];
        repeat split; lia ].
    cbn [firstn water_labels]. rewrite <- !app_assoc. reflexivity.
  - destruct (Nat.eqb_spec (mol_idx st + 1) num_waters) as [HW|HW];
      intros [= <-];
      (eapply (label_inv_extend pre st _ line _ ("H2", "WAT", "H"));
       [ exact HL | apply atoms_of_close | reflexivity | exact Hel
       | unfold labels_read; rewrite Hph, Hj;
         cbn [current_mol_type mol_idx atom_in_mol_idx]
       | unfold residues_read;
         cbn [current_mol_type mol_idx residue_counter]; lia
       | unfold indices_in_range;
         cbn [current_mol_type mol_idx atom_in_mol_idx current_residue_lines];
         repeat split; try lia; try reflexivity ]).
    + unfold expected_labels. rewrite <- HW, copies_snoc.
      cbn [firstn water_labels]. rewrite <- !app_assoc. reflexivity.
    + rewrite copies_snoc. cbn [firstn water_labels].
      rewrite <- !app_assoc. reflexivity.
Qed.

(** Every record that is processed keeps the machine on the pattern. *)
Lemma step_labels pre st line_num line st' :
  Lab pre st ->
  current_mol_type st <> done ->
  run_step line_num line st = inr st' ->
  Lab (pre ++ [line]) st'.
Proof.
  intros HL Hnd. unfold step.
  destruct (read_xyz py_float line) as [p|]; [|discriminate].
  destruct (current_mol_type st) eqn:Hph.
  - intros H. eapply step_oligomer_labels; eauto.
  - intros H. eapply step_ion_labels; eauto.
  - intros H. eapply step_water_labels; eauto.
  - contradiction.
Qed.

(** The pattern invariant where the loop is left, with the records read and
    those left. *)
Lemma main_loop_labels : forall rest n pre st,
  Lab pre st ->
  exists used left,
    rest = used ++ left
    /\ Lab (pre ++ used) (final_state (run_loop n rest st))
    /\ match run_loop n rest st with
       | Completed st' un => un = left /\ (left = [] \/ current_mol_type st' = done)
       | Aborted e st' =>
           exists line left',
             left = line :: left' /\ current_mol_type st' <> done
             /\ run_step (n + List.length used) line st' = inl e
       end.
Proof.
  induction rest as [|line rest IH]; intros n pre st HL.
  - exists [], []. simpl. rewrite app_nil_r. auto.
  - destruct (mol_type_done_dec (current_mol_type st)) as [Hd|Hd].
    + rewrite main_loop_break by exact Hd.
      exists [], (line :: rest). simpl. rewrite app_nil_r. auto.
    + rewrite main_loop_running by exact Hd.
      destruct (run_step n line st) as [e|st1] eqn:Hs.
      * exists [], (line :: rest). simpl. rewrite app_nil_r, Nat.add_0_r.
        split; [reflexivity|]. split; [exact HL|].
        exists line, rest. auto.
      * pose proof (step_labels _ _ _ _ _ HL Hd Hs) as HL1.
        destruct (IH (S n) _ _ HL1) as (used & left & Hsplit & HL' & Hres).
        exists (line :: used), left.
        rewrite <- app_assoc in HL'. simpl in HL'.
        split; [simpl; congruence|]. split; [exact HL'|].
        destruct (run_loop (S n) rest st1); [exact Hres|].
        destruct Hres as (l & left' & H1 & H2 & H3).
        exists l, left'. repeat split; auto.
        simpl. rewrite <- Nat.add_succ_comm. exact H3.
Qed.

(** The number of records read, from the pattern. *)
Lemma labels_read_length pre st :
  Lab pre st -> List.length pre = List.length (read st).
Proof.
  intros HL. pose proof (lab_elements _ _ _ _ _ _ HL) as H.
  apply (f_equal (@List.length string)) in H. rewrite !length_map in H. exact H.
Qed.

End LabelMachine.

(** * Runs of [process_pdb] *)

(** The counts a run of [process_pdb] works with: the manual ones on a
    stream shorter than the template, the detected ones otherwise, with at
    least one unit. *)
Lemma process_pdb_counts {coord : Type} (py_float : string -> option coord)
      (fuel : nat) (cfg : manual_config) (input_pdb mol2_template : list string)
      (o : outcome coord) :
  process_pdb py_float fuel cfg input_pdb mol2_template = Some o ->
  let atom_lines := atom_lines_of input_pdb in
  let oligomer_info := load_atom_names_from_mol2 mol2_template in
  exists detected U I W,
    auto_detect_counts fuel atom_lines (List.length oligomer_info) = Some detected
    /\ 1 <= List.length oligomer_info
    /\ o = reconstruct py_float oligomer_info U I W (header_lines_of input_pdb) atom_lines
    /\ ((List.length atom_lines < List.length oligomer_info /\ detected = (0, 0, 0))
        \/ (List.length oligomer_info <= List.length atom_lines
            /\ detected = (U, I, W) /\ 1 <= U)).
Proof.
  intros H atom_lines oligomer_info. unfold process_pdb in H.
  fold atom_lines oligomer_info in H. cbv zeta in H.
  destruct (auto_detect_counts fuel atom_lines (List.length oligomer_info))
    as [[[u i] w]|] eqn:Hdet; [|discriminate].
  destruct (fallback_counts cfg (u, i, w)) as [[U I] W] eqn:Hfb.
  injection H as <-. exists (u, i, w), U, I, W.
  assert (Hpos : 1 <= List.length oligomer_info).
  { destruct (List.length oligomer_info) eqn:Hl; [|lia].
    rewrite auto_detect_counts_empty_template in Hdet; [discriminate|reflexivity]. }
  repeat split; auto.
  destruct (Nat.lt_ge_cases (List.length atom_lines) (List.length oligomer_info))
    as [Hshort|Hlen].
  - left. split; [exact Hshort|].
    rewrite auto_detect_counts_short in Hdet by exact Hshort. congruence.
  - right. pose proof (auto_detect_counts_first_unit _ _ _ _ _ _ Hlen Hdet) as Hu.
    unfold fallback_counts in Hfb.
    destruct (Nat.eqb_spec u 0) as [->|_]; [lia|]. simpl in Hfb.
    injection Hfb as <- <- <-. auto.
Qed.

Section StepErrors.

Context {coord : Type}.
Variable py_float : string -> option coord.
Variable oligomer_info : list (string * string).
Variables num_oligomers num_ions num_waters : nat.

Local Abbreviation run_step := (step py_float oligomer_info num_oligomers num_ions num_waters).

(** What each kind of exit says about the record and the state. *)
Lemma step_fatal (line_num : nat) (line : string) (st : state coord) (e : fatal) :
  run_step line_num line st = inl e ->
  match e with
  | InvalidCoordinates n => n = line_num /\ read_xyz py_float line = None
  | OligomerMismatch n tn te found =>
      n = line_num /\ read_xyz py_float line <> None
      /\ current_mol_type st = oligomer
      /\ nth_error oligomer_info (atom_in_mol_idx st) = Some (tn, te)
      /\ found = get_pdb_element line /\ found <> te
  | IonMismatch n expected found =>
      n = line_num /\ read_xyz py_float line <> None
      /\ current_mol_type st = ion
      /\ expected = "Cl" /\ found = get_pdb_element line /\ found <> "Cl"
  | WaterMismatch n te found =>
      n = line_num /\ read_xyz py_float line <> None
      /\ current_mol_type st = water
      /\ nth_error water_elements (atom_in_mol_idx st) = Some te
      /\ found = get_pdb_element line /\ found <> te
  | IndexError =>
      read_xyz py_float line <> None
      /\ ((current_mol_type st = oligomer
           /\ List.length oligomer_info <= atom_in_mol_idx st)
          \/ (current_mol_type st = water /\ 3 <= atom_in_mol_idx st))
  end.
Proof.
  unfold step.
  destruct (read_xyz py_float line) as [p|] eqn:Hp;
    [|intros [= <-]; auto].
  destruct (current_mol_type st) eqn:Hph.
  - unfold step_oligomer.
    destruct (nth_error oligomer_info (atom_in_mol_idx st)) as [[tn te]|] eqn:Hnth.
    + destruct (String.eqb_spec (get_pdb_element line) te) as [Hel|Hel]; cbv [negb].
      * destruct (_ =? atoms_per_oligomer _); [destruct (_ =? num_oligomers)|];
          discriminate.
      * intros [= <-]. repeat split; auto; discriminate.
    + intros [= <-]. split; [discriminate|]. left. split; [reflexivity|].
      apply nth_error_None. exact Hnth.
  - unfold step_ion.
    destruct (String.eqb_spec (get_pdb_element line) "Cl") as [Hel|Hel]; cbv [negb].
    + destruct (_ =? num_ions); discriminate.
    + intros [= <-]. repeat split; auto; discriminate.
  - unfold step_water.
    destruct (nth_error water_atom_names (atom_in_mol_idx st)) as [name|] eqn:Hn1;
      destruct (nth_error water_elements (atom_in_mol_idx st)) as [te|] eqn:Hn2.
    + destruct (String.eqb_spec (get_pdb_element line) te) as [Hel|Hel]; cbv [negb].
      * destruct (_ =? 3); discriminate.
      * intros [= <-]. repeat split; auto; discriminate.
    + intros [= <-]. split; [discriminate|]. right. split; [reflexivity|].
      apply nth_error_None in Hn2. exact Hn2.
    + intros [= <-]. split; [discriminate|]. right. split; [reflexivity|].
      apply nth_error_None in Hn1. exact Hn1.
    + intros [= <-]. split; [discriminate|]. right. split; [reflexivity|].
      apply nth_error_None in Hn1. exact Hn1.
  - discriminate.
Qed.

End StepErrors.

(** An aborted [process_pdb]: the counts, the records read before the one
    the run stopped at, and both invariants in the state at exit. *)
Lemma process_pdb_aborted {coord : Type} (py_float : string -> option coord)
      (fuel : nat) (cfg : manual_config) (input_pdb mol2_template : list string)
      (e : fatal) (st : state coord) :
  process_pdb py_float fuel cfg input_pdb mol2_template = Some (Aborted e st) ->
  let atom_lines := atom_lines_of input_pdb in
  let oligomer_info := load_atom_names_from_mol2 mol2_template in
  exists detected U I W used line left rs cur,
    auto_detect_counts fuel atom_lines (List.length oligomer_info) = Some detected
    /\ 1 <= List.length oligomer_info
    /\ ((List.length atom_lines < List.length oligomer_info /\ detected = (0, 0, 0))
        \/ (List.length oligomer_info <= List.length atom_lines
            /\ detected = (U, I, W) /\ 1 <= U))
    /\ atom_lines = used ++ line :: left
    /\ current_mol_type st <> done
    /\ step py_float oligomer_info U I W (1 + List.length used) line st = inl e
    /\ loop_inv py_float (header_lines_of input_pdb) oligomer_info U I W used rs cur st
    /\ label_inv oligomer_info U I W used st.
Proof.
  intros H atom_lines oligomer_info.
  destruct (process_pdb_counts _ _ _ _ _ _ H)
    as (detected & U & I & W & Hdet & Hpos & Hrun & Hcase).
  fold atom_lines oligomer_info in Hdet, Hpos, Hrun, Hcase.
  unfold reconstruct in Hrun.
  destruct (main_loop_from_start py_float (header_lines_of input_pdb) oligomer_info
              U I W atom_lines)
    as (used & left & rs & cur & Hsplit & HI & Hres).
  destruct (main_loop_labels py_float oligomer_info U I W atom_lines 1 []
              (initial_state (header_lines_of input_pdb))
              (initial_state_labels _ _ _ _ _))
    as (used2 & left2 & Hsplit2 & HL & Hres2).
  destruct (main_loop py_float oligomer_info U I W 1 atom_lines
              (initial_state (header_lines_of input_pdb))) as [st0 un|e0 st0];
    [discriminate|].
  injection Hrun as -> ->. simpl in HI, HL.
  destruct Hres as (line & left' & -> & Hnd & Hstep).
  destruct Hres2 as (line2 & left2' & -> & _ & Hstep2).
  assert (Hlen : List.length used = List.length used2).
  { pose proof (inv_counter _ _ _ _ _ _ (inv_core _ _ _ _ _ _ _ _ _ _ HI)) as H1.
    pose proof (labels_read_length _ _ _ _ _ _ HL) as H2.
    pose proof (inv_phase _ _ _ _ _ _ _ _ _ _ HI) as HP.
    pose proof (lab_indices _ _ _ _ _ _ HL) as Hidx.
    unfold phase_inv in HP. unfold indices_in_range in Hidx.
    unfold labels_read in H2.
    destruct (current_mol_type st0); [| | |contradiction].
    - destruct HP as (_ & Ha & Hn). destruct Hidx as (_ & _).
      rewrite length_app, length_copies, length_firstn in H2.
      unfold unit_labels in H2. rewrite length_map in H2. lia.
    - destruct HP as (_ & _ & Hn).
      rewrite length_app, length_copies, repeat_length in H2.
      unfold unit_labels in H2. rewrite length_map in H2. lia.
    - destruct HP as (_ & Ha & _ & Hn).
      rewrite !length_app, !length_copies, repeat_length, length_firstn in H2.
      unfold unit_labels in H2. rewrite length_map in H2. simpl in H2. lia. }
  assert (used2 = used).
  { apply (f_equal (firstn (List.length used))) in Hsplit2.
    rewrite Hsplit in Hsplit2.
    rewrite firstn_app, firstn_all, Nat.sub_diag in Hsplit2. simpl in Hsplit2.
    rewrite app_nil_r in Hsplit2. rewrite Hsplit2, Hlen.
    rewrite firstn_app, firstn_all, Nat.sub_diag. simpl. symmetry. apply app_nil_r. }
  subst used2.
  exists detected, U, I, W, used, line, left', rs, cur.
  split; [exact Hdet|]. split; [exact Hpos|]. split; [exact Hcase|].
  split; [exact Hsplit|]. split; [exact Hnd|]. split; [exact Hstep|].
  split; [exact HI | exact HL].
Qed.

(** X9.  [process_pdb] never stops with the water message: the records the
    water phase checks are those the detector has already found to classify
    as [O], [H], [H], with the same classifier, and under the manual counts
    the water phase is never reached. *)
Theorem water_mismatch_unreachable
        {coord : Type} (py_float : string -> option coord)
        (fuel : nat) (cfg : manual_config) (input_pdb mol2_template : list string)
        (e : fatal) (st : state coord) :
  process_pdb py_float fuel cfg input_pdb mol2_template = Some (Aborted e st) ->
  forall line_num target_element found,
    e <> WaterMismatch line_num target_element found.
Proof.
  intros H line_num te found ->.
  destruct (process_pdb_aborted _ _ _ _ _ _ _ H)
    as (detected & U & I & W & used & line & left & rs & cur
        & Hdet & Hpos & Hcase & Hsplit & Hnd & Hstep & HI & HL).
  apply step_fatal in Hstep. destruct Hstep as (_ & _ & Hph & Hte & Hf & Hne).
  pose proof (lab_indices _ _ _ _ _ _ HL) as Hidx.
  pose proof (labels_read_length _ _ _ _ _ _ HL) as Hlen.
  unfold indices_in_range in Hidx. unfold labels_read in Hlen.
  rewrite Hph in Hidx, Hlen. destruct Hidx as (HU & Hm & Ha).
  rewrite !length_app, !length_copies, repeat_length, length_firstn in Hlen.
  unfold unit_labels in Hlen. rewrite length_map in Hlen. simpl in Hlen.
  rewrite Nat.min_l in Hlen by lia.
  assert (Htotal : List.length (atom_lines_of input_pdb)
                   = List.length used + S (List.length left))
    by (rewrite Hsplit, length_app; reflexivity).
  destruct Hcase as [[Hshort _]|(Hlong & -> & _)]; [nia|].
  destruct (detected_waters_are_OHH _ _ _ _ _ _ Hlong Hdet) as [Hall _].
  specialize (Hall (mol_idx st) (atom_in_mol_idx st) Hm Ha).
  replace (U * List.length (load_atom_names_from_mol2 mol2_template) + I
           + 3 * mol_idx st + atom_in_mol_idx st)
    with (List.length used) in Hall by lia.
  rewrite Hsplit, nth_middle in Hall.
  change water_pattern with water_elements in Hall.
  rewrite (nth_error_nth _ _ _ Hte) in Hall. congruence.
Qed.

Lemma water_mismatch_unreachable_witness :
  exists st,
    process_pdb PyFloat.py_float_text 10 shipped_config blank_ion_pdb two_atom_mol2
    = Some (Aborted (InvalidCoordinates 3) st)
    /\ forall line_num target_element found,
      InvalidCoordinates 3 <> WaterMismatch line_num target_element found.
Proof.
  eexists. split; [vm_compute; reflexivity|].
  eapply (water_mismatch_unreachable PyFloat.py_float_text 10 shipped_config
                                     blank_ion_pdb two_atom_mol2).
  vm_compute. reflexivity.
Defined.

(** X10.  Whenever [process_pdb] stops on a fatal error, it is at the record
    that follows those read so far: the message is one of the four
    [sys.exit] messages, never a subscript out of range; the line number it
    gives is the number of records read plus one, the 1-based index of that
    record among the atom records; and it is the coordinate message exactly
    when the coordinates of that record do not parse, whatever the phase. *)
Theorem abort_names_offending_record
        {coord : Type} (py_float : string -> option coord)
        (fuel : nat) (cfg : manual_config) (input_pdb mol2_template : list string)
        (e : fatal) (st : state coord) :
  process_pdb py_float fuel cfg input_pdb mol2_template = Some (Aborted e st) ->
  exists line,
    nth_error (atom_lines_of input_pdb) (atom_counter st) = Some line
    /\ e <> IndexError
    /\ reported_line e = Some (atom_counter st + 1)
    /\ (e = InvalidCoordinates (atom_counter st + 1)
        <-> read_xyz py_float line = None).
Proof.
  intros H.
  destruct (process_pdb_aborted _ _ _ _ _ _ _ H)
    as (detected & U & I & W & used & line & left & rs & cur
        & Hdet & Hpos & Hcase & Hsplit & Hnd & Hstep & HI & HL).
  pose proof (inv_counter _ _ _ _ _ _ (inv_core _ _ _ _ _ _ _ _ _ _ HI)) as Hc.
  pose proof (inv_phase _ _ _ _ _ _ _ _ _ _ HI) as HP.
  unfold phase_inv in HP.
  exists line. rewrite Hc, Nat.add_1_r. split.
  { rewrite Hsplit, nth_error_app2, Nat.sub_diag by lia. reflexivity. }
  apply step_fatal in Hstep. simpl Nat.add in Hstep.
  destruct e as [n|n tn te f|n ex f|n te f|].
  - destruct Hstep as [-> Hp].
    split; [discriminate|]. split; [reflexivity|]. split; auto.
  - destruct Hstep as (-> & Hp & _).
    split; [discriminate|]. split; [reflexivity|].
    split; [discriminate | intros Hn; contradiction].
  - destruct Hstep as (-> & Hp & _).
    split; [discriminate|]. split; [reflexivity|].
    split; [discriminate | intros Hn; contradiction].
  - destruct Hstep as (-> & Hp & _).
    split; [discriminate|]. split; [reflexivity|].
    split; [discriminate | intros Hn; contradiction].
  - exfalso. destruct Hstep as (_ & [[Hph Ha]|[Hph Ha]]); rewrite Hph in HP.
    + destruct HP as (_ & Hb & _). lia.
    + destruct HP as (_ & Hb & _). lia.
Qed.

Lemma abort_names_offending_record_witness :
  exists st line,
    process_pdb PyFloat.py_float_text 10 shipped_config broken_pdb five_atom_mol2
    = Some (Aborted (OligomerMismatch 10 "H1" "H" "D") st)
    /\ nth_error (atom_lines_of broken_pdb) (atom_counter st) = Some line
    /\ reported_line (OligomerMismatch 10 "H1" "H" "D") = Some (atom_counter st + 1).
Proof.
  eexists.
  edestruct (abort_names_offending_record
               PyFloat.py_float_text 10 shipped_config broken_pdb five_atom_mol2)
    as (line & H1 & _ & H3 & _).
  - vm_compute. reflexivity.
  - exists line. split; [vm_compute; reflexivity|]. split; [exact H1 | exact H3].
Defined.

(** X11.  Whatever the fatal error, the main output holds at that moment the
    header lines and complete residues only, each closed by its [TER], with
    the serial numbers 1, 2, 3, ... and the residue numbers 1, 2, 3, ...; no
    line of the residue being read, and no [END]. *)
Theorem abort_leaves_complete_residues
        {coord : Type} (py_float : string -> option coord)
        (fuel : nat) (cfg : manual_config) (input_pdb mol2_template : list string)
        (e : fatal) (st : state coord) :
  process_pdb py_float fuel cfg input_pdb mol2_template = Some (Aborted e st) ->
  exists rs,
    fout st = map Header (header_lines_of input_pdb) ++ render rs
    /\ ~ In EndLine (fout st)
    /\ map serial (concat rs) = seq 1 (List.length (concat rs))
    /\ (forall k r, nth_error rs k = Some r ->
                    r <> [] /\ Forall (fun a => res_seq a = k + 1) r)
    /\ List.length rs = residue_counter st
    /\ List.length (concat rs) + List.length (current_residue_lines st)
       = atom_counter st.
Proof.
  intros H.
  destruct (process_pdb_aborted _ _ _ _ _ _ _ H)
    as (detected & U & I & W & used & line & left & rs & cur
        & _ & _ & _ & _ & _ & _ & HI & _).
  pose proof (inv_core _ _ _ _ _ _ _ _ _ _ HI) as HC.
  destruct (closed_serials _ _ _ _ _ _ _ _ _ _ HI) as [Hs Hl].
  exists rs. split; [apply (inv_fout _ _ _ _ _ _ HC)|].
  split.
  { rewrite (inv_fout _ _ _ _ _ _ HC). intros Hin. apply in_app_iff in Hin.
    destruct Hin as [Hin|Hin].
    - apply in_map_iff in Hin. destruct Hin as (h & Hh & _). discriminate.
    - apply render_lines in Hin. destruct Hin as [Hh|(a & Hh & _)]; discriminate. }
  split; [exact Hs|]. split.
  { intros k r Hk.
    destruct (numbered_from_nth _ _ _ _ (inv_numbered _ _ _ _ _ _ HC) Hk) as [H1 H2].
    split; [exact H1|]. rewrite Nat.add_comm. exact H2. }
  split; [symmetry; apply (inv_residues _ _ _ _ _ _ HC)|].
  rewrite (inv_buffer _ _ _ _ _ _ HC), length_map, (inv_counter _ _ _ _ _ _ HC).
  exact Hl.
Qed.

Lemma abort_leaves_complete_residues_witness :
  exists st rs,
    process_pdb PyFloat.py_float_text 10 shipped_config broken_pdb five_atom_mol2
    = Some (Aborted (OligomerMismatch 10 "H1" "H" "D") st)
    /\ fout st = map Header (header_lines_of broken_pdb) ++ render rs
    /\ List.length rs = residue_counter st.
Proof.
  eexists.
  edestruct (abort_leaves_complete_residues
               PyFloat.py_float_text 10 shipped_config broken_pdb five_atom_mol2)
    as (rs & H1 & _ & _ & _ & H5 & _).
  - vm_compute. reflexivity.
  - exists rs. split; [vm_compute; reflexivity|]. split; [exact H1 | exact H5].
Defined.

(** A completed reconstruction: the records read and left, and both
    invariants in the state before [END] was written. *)
Lemma reconstruct_completed {coord : Type} (py_float : string -> option coord)
      (oligomer_info : list (string * string)) (U I W : nat)
      (header_lines atom_lines : list string) (st : state coord) (un : list string) :
  reconstruct py_float oligomer_info U I W header_lines atom_lines = Completed st un ->
  exists st0 used rs cur,
    st = write_end st0
    /\ atom_lines = used ++ un
    /\ loop_inv py_float header_lines oligomer_info U I W used rs cur st0
    /\ label_inv oligomer_info U I W used st0
    /\ (un = [] \/ current_mol_type st0 = done).
Proof.
  unfold reconstruct. intros H.
  destruct (main_loop_from_start py_float header_lines oligomer_info U I W atom_lines)
    as (used & left & rs & cur & Hsplit & HI & Hres).
  destruct (main_loop_labels py_float oligomer_info U I W atom_lines 1 []
              (initial_state header_lines) (initial_state_labels _ _ _ _ _))
    as (used2 & left2 & Hsplit2 & HL & Hres2).
  destruct (main_loop py_float oligomer_info U I W 1 atom_lines
              (initial_state header_lines)) as [st0 un0|e0 st0]; [|discriminate].
  injection H as <- <-. simpl in HI, HL.
  destruct Hres as [<- Hend]. destruct Hres2 as [<- _].
  assert (used2 = used)
    by (rewrite Hsplit in Hsplit2; apply app_inv_tail in Hsplit2; congruence).
  subst used2.
  exists st0, used, rs, cur. auto.
Qed.

Lemma coordinates_all_parse {A B : Type} (f : A -> option B) (l2 : list A) :
  forall l1 : list B, map Some l1 = map f l2 -> Forall (fun x => f x <> None) l2.
Proof.
  induction l2 as [|x l2 IH]; intros [|y l1] H; simpl in H; try discriminate;
    constructor.
  - injection H as Hx _. congruence.
  - injection H as _ H. apply (IH _ H).
Qed.

Lemma atoms_of_end {coord : Type} (l : list (pdb_line coord)) :
  atoms_of (l ++ [EndLine]) = atoms_of l.
Proof. unfold atoms_of. rewrite flat_map_app. simpl. apply app_nil_r. Qed.

(** X12.  A reconstruction that completes in the [done] phase has validated
    every record it read: the coordinates of each parse, and their elements
    are, in order, those of the template once per unit, then [Cl] once per
    ion, then [O], [H], [H] once per water. *)
Theorem completed_run_validated
        {coord : Type} (py_float : string -> option coord)
        (oligomer_info : list (string * string)) (U I W : nat)
        (header_lines atom_lines : list string) (st : state coord) (un : list string) :
  reconstruct py_float oligomer_info U I W header_lines atom_lines = Completed st un ->
  current_mol_type st = done ->
  exists used,
    atom_lines = used ++ un
    /\ map get_pdb_element used = map snd (expected_labels oligomer_info U I W)
    /\ Forall (fun line => read_xyz py_float line <> None) used.
Proof.
  intros H Hdone. apply reconstruct_completed in H.
  destruct H as (st0 & used & rs & cur & -> & Hsplit & HI & HL & _).
  simpl in Hdone. exists used. split; [exact Hsplit|]. split.
  - rewrite (lab_elements _ _ _ _ _ _ HL). unfold labels_read.
    rewrite Hdone. reflexivity.
  - pose proof (inv_coords _ _ _ _ _ _ (inv_core _ _ _ _ _ _ _ _ _ _ HI)) as Hx.
    rewrite <- map_map in Hx. eapply coordinates_all_parse. exact Hx.
Qed.

Lemma completed_run_validated_witness :
  exists st un used,
    reconstruct PyFloat.py_float_text (load_atom_names_from_mol2 two_atom_mol2) 2 1 1
                (header_lines_of demo_pdb) (atom_lines_of demo_pdb)
    = Completed st un
    /\ atom_lines_of demo_pdb = used ++ un
    /\ map get_pdb_element used = ["C"; "H"; "C"; "H"; "Cl"; "O"; "H"; "H"].
Proof.
  eexists. eexists.
  edestruct (completed_run_validated
               PyFloat.py_float_text (load_atom_names_from_mol2 two_atom_mol2) 2 1 1
               (header_lines_of demo_pdb) (atom_lines_of demo_pdb))
    as (used & H1 & H2 & _).
  - vm_compute. reflexivity.
  - reflexivity.
  - exists used. split; [vm_compute; reflexivity|]. split; [exact H1 | exact H2].
Defined.

(** X13.  In the main output of a reconstruction that completes in the
    [done] phase, the atom lines carry, in order, the template's names with
    the residue name [MOL] once per unit, then [Cl-]/[Cl-] once per ion, then
    [O], [H1], [H2] with [WAT] once per water, whatever names the input had;
    and the number of residues written is the sum of the three counts. *)
Theorem completed_run_names
        {coord : Type} (py_float : string -> option coord)
        (oligomer_info : list (string * string)) (U I W : nat)
        (header_lines atom_lines : list string) (st : state coord) (un : list string) :
  reconstruct py_float oligomer_info U I W header_lines atom_lines = Completed st un ->
  current_mol_type st = done ->
  map names_of (atoms_of (fout st)) = map fst (expected_labels oligomer_info U I W)
  /\ residue_counter st = U + I + W
  /\ atom_counter st = U * List.length oligomer_info + I + 3 * W.
Proof.
  intros H Hdone. apply reconstruct_completed in H.
  destruct H as (st0 & used & rs & cur & -> & Hsplit & HI & HL & _).
  simpl in Hdone.
  pose proof (lab_indices _ _ _ _ _ _ HL) as Hidx.
  pose proof (lab_names _ _ _ _ _ _ HL) as Hn.
  pose proof (lab_residues _ _ _ _ _ _ HL) as Hr.
  pose proof (inv_phase _ _ _ _ _ _ _ _ _ _ HI) as HP.
  pose proof (inv_counter _ _ _ _ _ _ (inv_core _ _ _ _ _ _ _ _ _ _ HI)) as Hc.
  unfold indices_in_range in Hidx. unfold labels_read in Hn.
  unfold residues_read in Hr. unfold phase_inv in HP.
  rewrite Hdone in Hidx, Hn, Hr, HP. destruct Hidx as [_ Hbuf].
  rewrite Hbuf, app_nil_r in Hn.
  unfold write_end. cbn [fout residue_counter atom_counter].
  rewrite atoms_of_end. split; [exact Hn|]. split; [exact Hr|].
  destruct HP as (_ & _ & Hlen). lia.
Qed.

Lemma completed_run_names_witness :
  exists st un,
    reconstruct PyFloat.py_float_text (load_atom_names_from_mol2 two_atom_mol2) 2 1 1
                (header_lines_of demo_pdb) (atom_lines_of demo_pdb)
    = Completed st un
    /\ map names_of (atoms_of (fout st))
       = [("C1", "MOL"); ("H1", "MOL"); ("C1", "MOL"); ("H1", "MOL");
          ("Cl-", "Cl-"); ("O", "WAT"); ("H1", "WAT"); ("H2", "WAT")]
    /\ residue_counter st = 2 + 1 + 1.
Proof.
  eexists. eexists. split; [vm_compute; reflexivity|].
  edestruct (completed_run_names
               PyFloat.py_float_text (load_atom_names_from_mol2 two_atom_mol2) 2 1 1
               (header_lines_of demo_pdb) (atom_lines_of demo_pdb))
    as (H1 & H2 & _).
  - vm_compute. reflexivity.
  - reflexivity.
  - split; [exact H1 | exact H2].
Defined.

(** X14.  When the stream is at least as long as the template, so that the
    detected counts are used, a run of [process_pdb] that does not abort
    always ends in the [done] phase with an empty buffer: the records never
    run out inside a residue, and the warning about an incomplete residue is
    not given. *)
Theorem detected_run_ends_done
        {coord : Type} (py_float : string -> option coord)
        (fuel : nat) (cfg : manual_config) (input_pdb mol2_template : list string)
        (st : state coord) (un : list string) :
  process_pdb py_float fuel cfg input_pdb mol2_template = Some (Completed st un) ->
  List.length (load_atom_names_from_mol2 mol2_template)
  <= List.length (atom_lines_of input_pdb) ->
  current_mol_type st = done
  /\ current_residue_lines st = []
  /\ incomplete_residue_warning st = false.
Proof.
  intros H Hlong.
  destruct (process_pdb_counts _ _ _ _ _ _ H)
    as (detected & U & I & W & Hdet & Hpos & Hrun & Hcase).
  destruct Hcase as [[Hshort _]|(_ & -> & HU)]; [lia|].
  pose proof (auto_detect_counts_bound _ _ _ _ _ _ Hdet) as Hbound.
  symmetry in Hrun. apply reconstruct_completed in Hrun.
  destruct Hrun as (st0 & used & rs & cur & -> & Hsplit & HI & HL & Hend).
  pose proof (lab_indices _ _ _ _ _ _ HL) as Hidx.
  pose proof (labels_read_length _ _ _ _ _ _ HL) as Hlen.
  unfold indices_in_range in Hidx. unfold labels_read in Hlen.
  assert (Hdone : current_mol_type st0 = done).
  { destruct Hend as [->|Hd]; [|exact Hd].
    rewrite app_nil_r in Hsplit. rewrite <- Hsplit in Hlen.
    destruct (current_mol_type st0); [exfalso | exfalso | exfalso | reflexivity].
    - destruct Hidx as [[HU0|Hm] [Ha|Ha]]; try lia.
      rewrite length_app, length_copies, length_firstn in Hlen.
      unfold unit_labels in Hlen. rewrite length_map in Hlen. nia.
    - destruct Hidx as (_ & Hm & _).
      rewrite length_app, length_copies, repeat_length in Hlen.
      unfold unit_labels in Hlen. rewrite length_map in Hlen. lia.
    - destruct Hidx as (_ & Hm & Ha).
      rewrite !length_app, !length_copies, repeat_length, length_firstn in Hlen.
      unfold unit_labels in Hlen. rewrite length_map in Hlen. simpl in Hlen. lia. }
  rewrite Hdone in Hidx. destruct Hidx as [_ Hbuf].
  unfold incomplete_residue_warning, write_end.
  cbn [current_mol_type current_residue_lines]. rewrite Hbuf. auto.
Qed.

Lemma detected_run_ends_done_witness :
  exists st un,
    process_pdb PyFloat.py_float_text 10 shipped_config demo_pdb two_atom_mol2
    = Some (Completed st un)
    /\ current_mol_type st = done
    /\ current_residue_lines st = []
    /\ incomplete_residue_warning st = false.
Proof.
  eexists. eexists. split; [vm_compute; reflexivity|].
  eapply (detected_run_ends_done PyFloat.py_float_text 10 shipped_config
                                 demo_pdb two_atom_mol2).
  - vm_compute. reflexivity.
  - vm_compute. lia.
Defined.

(** X15.  When the stream is shorter than the template, so that the manual
    counts are used, a run of [process_pdb] that does not abort writes no
    atom line at all: the main output is the header lines and [END], every
    record read is still in the buffer, and the machine has not left the
    oligomer phase, whatever the manual counts are. *)
Theorem fallback_run_writes_no_atoms
        {coord : Type} (py_float : string -> option coord)
        (fuel : nat) (cfg : manual_config) (input_pdb mol2_template : list string)
        (st : state coord) (un : list string) :
  process_pdb py_float fuel cfg input_pdb mol2_template = Some (Completed st un) ->
  List.length (atom_lines_of input_pdb)
  < List.length (load_atom_names_from_mol2 mol2_template) ->
  fout st = map Header (header_lines_of input_pdb) ++ [EndLine]
  /\ un = []
  /\ current_mol_type st = oligomer
  /\ List.length (current_residue_lines st) = List.length (atom_lines_of input_pdb)
  /\ residue_counter st = 0.
Proof.
  intros H Hshort.
  destruct (process_pdb_counts _ _ _ _ _ _ H)
    as (detected & U & I & W & Hdet & Hpos & Hrun & _).
  symmetry in Hrun. apply reconstruct_completed in Hrun.
  destruct Hrun as (st0 & used & rs & cur & -> & Hsplit & HI & HL & Hend).
  pose proof (inv_core _ _ _ _ _ _ _ _ _ _ HI) as HC.
  pose proof (inv_phase _ _ _ _ _ _ _ _ _ _ HI) as HP.
  pose proof (lab_residues _ _ _ _ _ _ HL) as Hres.
  unfold phase_inv in HP. unfold residues_read in Hres.
  assert (Hused : List.length used <= List.length (atom_lines_of input_pdb))
    by (rewrite Hsplit, length_app; lia).
  destruct (current_mol_type st0) eqn:Hph.
  - destruct HP as (Hc & _ & Hn).
    assert (Hm : mol_idx st0 = 0) by nia.
    rewrite Hm in Hres.
    assert (Hrs : rs = []).
    { pose proof (inv_residues _ _ _ _ _ _ HC) as Hr. rewrite Hres in Hr.
      destruct rs; [reflexivity | discriminate]. }
    assert (Hun : un = []) by (destruct Hend as [Hu|Hd]; [exact Hu | discriminate]).
    subst un rs. rewrite app_nil_r in Hsplit. subst used.
    unfold write_end.
    cbn [fout current_mol_type current_residue_lines residue_counter].
    rewrite (inv_fout _ _ _ _ _ _ HC), (inv_buffer _ _ _ _ _ _ HC), length_map.
    simpl. rewrite app_nil_r. repeat split; auto. lia.
  - exfalso. destruct HP as (_ & HU & Hn). nia.
  - exfalso. destruct HP as (_ & _ & HU & Hn). nia.
  - exfalso. destruct HP as (_ & HU & Hn). nia.
Qed.

Lemma fallback_run_writes_no_atoms_witness :
  exists st un,
    process_pdb PyFloat.py_float_text 1 shipped_config short_pdb two_atom_mol2
    = Some (Completed st un)
    /\ fout st = map Header (header_lines_of short_pdb) ++ [EndLine]
    /\ un = []
    /\ current_mol_type st = oligomer
    /\ List.length (current_residue_lines st) = List.length (atom_lines_of short_pdb)
    /\ residue_counter st = 0.
Proof.
  eexists. eexists. split; [vm_compute; reflexivity|].
  eapply (fallback_run_writes_no_atoms PyFloat.py_float_text 1 shipped_config
                                       short_pdb two_atom_mol2).
  - vm_compute. reflexivity.
  - vm_compute. lia.
Defined.

Section AfterDone.

Context {coord : Type}.
Variable py_float : string -> option coord.
Variable oligomer_info : list (string * string).
Variables num_oligomers num_ions num_waters : nat.

Local Abbreviation run_loop :=
  (main_loop py_float oligomer_info num_oligomers num_ions num_waters).

Lemma main_loop_done (n : nat) (lines : list string) (st : state coord) :
  current_mol_type st = done -> run_loop n lines st = Completed st lines.
Proof.
  intros Hd. destruct lines as [|line lines]; [reflexivity|].
  apply main_loop_break. exact Hd.
Qed.

(** A loop left in the [done] phase gives the same state whatever follows
    the records it has read. *)
Lemma main_loop_done_prefix : forall lines n st st' un,
  run_loop n lines st = Completed st' un ->
  current_mol_type st' = done ->
  exists used,
    lines = used ++ un
    /\ forall rest, run_loop n (used ++ rest) st = Completed st' rest.
Proof.
  induction lines as [|line lines IH]; intros n st st' un H Hdone.
  - simpl in H. injection H as <- <-. exists []. split; [reflexivity|].
    intros rest. apply main_loop_done. exact Hdone.
  - destruct (mol_type_done_dec (current_mol_type st)) as [Hd|Hd].
    + rewrite main_loop_break in H by exact Hd. injection H as <- <-.
      exists []. split; [reflexivity|].
      intros rest. apply main_loop_done. exact Hd.
    + rewrite main_loop_running in H by exact Hd.
      destruct (step py_float oligomer_info num_oligomers num_ions num_waters
                     n line st) as [e|st1] eqn:Hs; [discriminate|].
      destruct (IH _ _ _ _ H Hdone) as (used & Hsplit & Hrest).
      exists (line :: used). split; [simpl; congruence|].
      intros rest. rewrite <- app_comm_cons, main_loop_running by exact Hd.
      rewrite Hs. apply Hrest.
Qed.

End AfterDone.

(** X16.  A reconstruction that completes in the [done] phase has not looked
    at the records it left: with any other records in their place, parsable
    or not, it ends in the same state, with the same two files, and leaves
    those records. *)
Theorem records_after_done_ignored
        {coord : Type} (py_float : string -> option coord)
        (oligomer_info : list (string * string)) (U I W : nat)
        (header_lines atom_lines : list string) (st : state coord) (un : list string) :
  reconstruct py_float oligomer_info U I W header_lines atom_lines = Completed st un ->
  current_mol_type st = done ->
  exists used,
    atom_lines = used ++ un
    /\ forall rest,
      reconstruct py_float oligomer_info U I W header_lines (used ++ rest)
      = Completed st rest.
Proof.
  unfold reconstruct. intros H Hdone.
  destruct (main_loop py_float oligomer_info U I W 1 atom_lines
              (initial_state header_lines)) as [st0 un0|e st0] eqn:Hrun;
    [|discriminate].
  injection H as <- <-. simpl in Hdone.
  destruct (main_loop_done_prefix _ _ _ _ _ _ _ _ _ _ Hrun Hdone)
    as (used & Hsplit & Hrest).
  exists used. split; [exact Hsplit|].
  intros rest. rewrite Hrest. reflexivity.
Qed.

Lemma records_after_done_ignored_witness :
  exists st used,
    atom_lines_of demo_pdb = used ++ skipn 8 (atom_lines_of demo_pdb)
    /\ forall rest,
      reconstruct PyFloat.py_float_text (load_atom_names_from_mol2 two_atom_mol2) 2 1 1
                  (header_lines_of demo_pdb) (used ++ rest)
      = Completed st rest.
Proof.
  eexists.
  edestruct (records_after_done_ignored
               PyFloat.py_float_text (load_atom_names_from_mol2 two_atom_mol2) 2 1 1
               (header_lines_of demo_pdb) (atom_lines_of demo_pdb))
    as (used & H1 & H2).
  - vm_compute. reflexivity.
  - reflexivity.
  - exists used. split; [exact H1 | exact H2].
Defined.
